(** * DevToolsPlugin: batching, overload policy and plugin host

    A shallow embedding of the [DevToolsPlugin] class of rxjs-spy
    (plugins/devtools-plugin.ts).  The object's private fields become a
    record, each method becomes a function that passes the state of the
    program explicitly, and everything the class only consumes (the spy, the
    connection to the extension, timers, the clock, the decks of the pause
    plugins) is kept in a second record next to it.  The JavaScript event
    loop becomes a list of events, run one after the other. *)

From stdpp Require Import base strings list gmap pretty.

(** ** JavaScript values and object identity *)

(** Objects are known by their identity only. *)
Definition Obj := nat.

(** What the code types as [any]. *)
Inductive JsValue :=
| JUndefined
| JNull
| JBool (b : bool)
| JNumber (z : Z)
| JString (s : string)
| JObject (o : Obj).

(** A field that holds a value or [null]. *)
Inductive Nullable (A : Type) :=
| null
| just (a : A).
Arguments null {A}.
Arguments just {A} a.

(** [orNull]: [undefined] becomes [null], anything else is kept.  The
    source applies it to results typed [T | undefined]. *)
Definition orNull {A} (value : option A) : Nullable A :=
  match value with
  | None => null
  | Some v => just v
  end.

(** The same function at type [any]. *)
Definition orNull_any (value : JsValue) : JsValue :=
  match value with
  | JUndefined => JNull
  | v => v
  end.

(** ** Subscription references and lifecycle notifications *)

(** A [SubscriptionRef] points at the observable, the subscriber and the
    subscription; [ref_self] is the identity of the reference object. *)
Record SubscriptionRef := {
  ref_self : Obj;
  observable : Obj;
  subscriber : Obj;
  subscription : Obj
}.

(** [Notification] of plugin.ts: the five kinds of notification. *)
Inductive Notification :=
| complete
| error_
| next
| subscribe
| unsubscribe.

Inductive Prefix :=
| after
| before.

Definition Notification_str (n : Notification) : string :=
  match n with
  | complete => "complete"
  | error_ => "error"
  | next => "next"
  | subscribe => "subscribe"
  | unsubscribe => "unsubscribe"
  end.

Definition Prefix_str (p : Prefix) : string :=
  match p with
  | after => "after"
  | before => "before"
  end.

(** [NotificationRef]: an optional field that is left out reads as
    [undefined]. *)
Record NotificationRef := {
  error : JsValue;
  notification : Notification;
  prefix : Prefix;
  ref : SubscriptionRef;
  value : JsValue
}.

(** The seven hooks the spy calls on the plugin. *)
Inductive Lifecycle :=
| afterSubscribe (r : SubscriptionRef)
| afterUnsubscribe (r : SubscriptionRef)
| beforeComplete (r : SubscriptionRef)
| beforeError (r : SubscriptionRef) (e : JsValue)
| beforeNext (r : SubscriptionRef) (v : JsValue)
| beforeSubscribe (r : SubscriptionRef)
| beforeUnsubscribe (r : SubscriptionRef).

(** The object literal each hook hands to [batchNotification_]. *)
Definition notificationRef_of (l : Lifecycle) : NotificationRef :=
  match l with
  | afterSubscribe r =>
      {| error := JUndefined; notification := subscribe; prefix := after;
         ref := r; value := JUndefined |}
  | afterUnsubscribe r =>
      {| error := JUndefined; notification := unsubscribe; prefix := after;
         ref := r; value := JUndefined |}
  | beforeComplete r =>
      {| error := JUndefined; notification := complete; prefix := before;
         ref := r; value := JUndefined |}
  | beforeError r e =>
      {| error := e; notification := error_; prefix := before;
         ref := r; value := JUndefined |}
  | beforeNext r v =>
      {| error := JUndefined; notification := next; prefix := before;
         ref := r; value := v |}
  | beforeSubscribe r =>
      {| error := JUndefined; notification := subscribe; prefix := before;
         ref := r; value := JUndefined |}
  | beforeUnsubscribe r =>
      {| error := JUndefined; notification := unsubscribe; prefix := before;
         ref := r; value := JUndefined |}
  end.

(** ** Graph links *)

Record GraphRef := {
  flats : list SubscriptionRef;
  flatsFlushed : nat;
  rootSink : option SubscriptionRef;
  sink : option SubscriptionRef;
  sources : list SubscriptionRef;
  sourcesFlushed : nat
}.

Record GraphPayload := {
  g_flats : list string;
  g_flatsFlushed : nat;
  g_rootSink : Nullable string;
  g_sink : Nullable string;
  g_sources : list string;
  g_sourcesFlushed : nat
}.

(** ** Wire payloads *)

Record ObservablePayload := {
  o_id : string;
  o_path : string;
  o_tag : Nullable string;
  o_type : string
}.

Record SubscriberPayload := { s_id : string }.

Record SubscriptionPayload := {
  sub_error : JsValue;
  sub_graph : Nullable GraphPayload;
  sub_id : string;
  sub_stackTrace : JsValue
}.

(** [toValue]'s result, [{ json: string }]. *)
Record ValuePayload := { json : string }.

Record NotificationPayload := {
  n_id : string;
  n_observable : ObservablePayload;
  n_subscriber : SubscriberPayload;
  n_subscription : SubscriptionPayload;
  n_tick : nat;
  n_timestamp : nat;
  n_type : string;
  n_value : option ValuePayload
}.

(** ** Requests *)

(** An inbound request.  [pluginId] and [command] are read with
    [request["..."]] and may be missing. *)
Record Request := {
  requestType : string;
  postId : string;
  req_spyId : string;
  req_pluginId : option string;
  command : option string
}.

(** ** What the class imports

    The two constants of devtools/constants.ts that the batching layer
    reads.  Their values are not fixed here: every result below holds for
    all of them. *)
Class Constants := {
  BATCH_MILLISECONDS : nat;
  BATCH_NOTIFICATIONS : nat
}.

(** The collaborators: functions and types the class calls but does not
    define.  [Deck] is the state of a pause plugin's deck, [deck_call] one
    of its methods called by name (the new state, and the stats the deck
    emits on its [stats] stream while the call runs), [DeckStats] a value of
    that stream.  [Snapshot] is what [snapshotAll] returns; it is declared in
    snapshot-plugin.ts, and so [toSnapshot], which only copies its fields
    into the payload, is taken here as a function between the two opaque
    types: no property below looks inside a snapshot. *)
Class Collaborators := {
  Deck : Type;
  DeckStats : Type;
  Snapshot : Type;
  SnapshotPayload : Type;
  new_Deck : string -> Deck;
  deck_call : string -> Deck -> Deck * list DeckStats;
  identify : Obj -> string;
  inferPath : Obj -> string;
  inferType : Obj -> string;
  read : Obj -> option string;
  getGraphRef : SubscriptionRef -> option GraphRef;
  getStackTrace : SubscriptionRef -> JsValue;
  stringify : JsValue -> string;
  toSnapshot : Snapshot -> SnapshotPayload
}.

Section DevTools.
Context `{K : Constants} `{C : Collaborators}.

(** ** Messages *)

(** [toStats]: [{ id, ...stats }].  The stats of a deck have no [id] of
    their own, so the spread leaves [id] as given. *)
Record DeckStatsPayload := {
  stats_id : string;
  stats_rest : DeckStats
}.

Definition toStats (id : string) (stats : DeckStats) : DeckStatsPayload :=
  {| stats_id := id; stats_rest := stats |}.

Record Response := {
  request : Request;
  res_error : option string;
  res_pluginId : option string;
  res_snapshot : option SnapshotPayload
}.

Inductive Broadcast :=
| BNotification (n : NotificationPayload)
| BDeckStats (stats : DeckStatsPayload)
| BSnapshotHint.

(** The wire unit, tagged by [messageType]. *)
#[warnings="-register-all"]
Inductive Message :=
| MBatch (messages : list Message)
| MBroadcast (b : Broadcast)
| MResponse (r : Response).

(** [message.broadcastType]; [undefined] on a message that has none. *)
Definition broadcastType (message : Message) : option string :=
  match message with
  | MBroadcast (BNotification _) => Some "notification"
  | MBroadcast (BDeckStats _) => Some "deck-stats"
  | MBroadcast BSnapshotHint => Some "snapshot-hint"
  | _ => None
  end.

(** [message.stats.id], read only behind the [broadcastType] test. *)
Definition stats_id_of (message : Message) : option string :=
  match message with
  | MBroadcast (BDeckStats s) => Some (stats_id s)
  | _ => None
  end.

(** [message.broadcastType === "notification"] *)
Definition is_notification (message : Message) : bool :=
  bool_decide (broadcastType message = Some "notification").

(** The predicate of the filter in [batchDeckStats_]:
    [broadcastType !== "deck-stats" || stats.id !== id]. *)
Definition other_deck_stats (id : string) (message : Message) : bool :=
  negb (bool_decide (broadcastType message = Some "deck-stats"))
  || negb (bool_decide (stats_id_of message = Some id)).

(** ** The state *)

Inductive Plugin :=
| LogPlugin (spyId : string)
| PausePlugin (spyId : string) (deck : Deck).

(** [rec_teardown] is the procedure [spy.plug] returned; it is known by the
    number of the [plug] call that made it. *)
Record PluginRecord := {
  rec_plugin : Plugin;
  rec_pluginId : string;
  rec_spyId : string;
  rec_teardown : nat
}.

(** The connection [extension.connect] returns. *)
Inductive Connection := connect.

(** The private fields.  [connection_] is [None] when undefined, and
    [subscription_] tells whether the subscription to the responses is
    still open. *)
Record DevToolsPlugin := {
  batchQueue_ : list Message;
  batchTimeoutId_ : option nat;
  connection_ : option Connection;
  plugins_ : gmap string PluginRecord;
  snapshotHinted_ : bool;
  subscription_ : bool
}.

(** Everything else the methods touch.
    - [tick], [snapshotPlugin]: the spy's tick and what
      [spy.find(SnapshotPlugin)] would give ([snapshotAll]'s result);
    - [plugs], [teardowns]: how many times [spy.plug] was called, and the
      teardown procedures invoked so far, oldest first;
    - [clock], [timers], [nextTimer]: the time in milliseconds, the armed
      timers with their due time, and the next timer id;
    - [posted], [disconnected]: the messages posted on the connection,
      oldest first, and whether [disconnect] was called;
    - [statsSubs]: the ids of the decks whose stats stream the plugin has
      subscribed to;
    - [enqueued]: the history of the calls to [batchMessage_];
    - [heap]: the next fresh object. *)
Record Env := {
  tick : nat;
  snapshotPlugin : option Snapshot;
  plugs : nat;
  teardowns : list nat;
  clock : nat;
  timers : list (nat * nat);
  nextTimer : nat;
  posted : list Message;
  disconnected : bool;
  statsSubs : list string;
  enqueued : list Message;
  heap : nat
}.

Record World := {
  dev : DevToolsPlugin;
  env : Env
}.

(** ** Field updates *)

Definition set_batchQueue_ (q : list Message) (d : DevToolsPlugin) :=
  {| batchQueue_ := q; batchTimeoutId_ := batchTimeoutId_ d;
     connection_ := connection_ d; plugins_ := plugins_ d;
     snapshotHinted_ := snapshotHinted_ d; subscription_ := subscription_ d |}.

Definition set_batchTimeoutId_ (t : option nat) (d : DevToolsPlugin) :=
  {| batchQueue_ := batchQueue_ d; batchTimeoutId_ := t;
     connection_ := connection_ d; plugins_ := plugins_ d;
     snapshotHinted_ := snapshotHinted_ d; subscription_ := subscription_ d |}.

Definition set_connection_ (c : option Connection) (d : DevToolsPlugin) :=
  {| batchQueue_ := batchQueue_ d; batchTimeoutId_ := batchTimeoutId_ d;
     connection_ := c; plugins_ := plugins_ d;
     snapshotHinted_ := snapshotHinted_ d; subscription_ := subscription_ d |}.

Definition set_plugins_ (m : gmap string PluginRecord) (d : DevToolsPlugin) :=
  {| batchQueue_ := batchQueue_ d; batchTimeoutId_ := batchTimeoutId_ d;
     connection_ := connection_ d; plugins_ := m;
     snapshotHinted_ := snapshotHinted_ d; subscription_ := subscription_ d |}.

Definition set_snapshotHinted_ (b : bool) (d : DevToolsPlugin) :=
  {| batchQueue_ := batchQueue_ d; batchTimeoutId_ := batchTimeoutId_ d;
     connection_ := connection_ d; plugins_ := plugins_ d;
     snapshotHinted_ := b; subscription_ := subscription_ d |}.

Definition set_subscription_ (b : bool) (d : DevToolsPlugin) :=
  {| batchQueue_ := batchQueue_ d; batchTimeoutId_ := batchTimeoutId_ d;
     connection_ := connection_ d; plugins_ := plugins_ d;
     snapshotHinted_ := snapshotHinted_ d; subscription_ := b |}.

Definition with_dev (f : DevToolsPlugin -> DevToolsPlugin) (w : World) :=
  {| dev := f (dev w); env := env w |}.

Definition with_env (f : Env -> Env) (w : World) :=
  {| dev := dev w; env := f (env w) |}.

(** ** The environment's primitives *)

(** [spy.tick] and [spy.find(SnapshotPlugin)] change under the spy's hand. *)
Definition spy_changed (t : nat) (s : option Snapshot) (e : Env) : Env :=
  {| tick := t; snapshotPlugin := s; plugs := plugs e;
     teardowns := teardowns e; clock := clock e; timers := timers e;
     nextTimer := nextTimer e; posted := posted e;
     disconnected := disconnected e; statsSubs := statsSubs e;
     enqueued := enqueued e; heap := heap e |}.

(** [spy.plug(plugin)]: the teardown procedure it returns. *)
Definition spy_plug (w : World) : nat * World :=
  let e := env w in
  (plugs e,
   {| dev := dev w;
      env := {| tick := tick e; snapshotPlugin := snapshotPlugin e;
                plugs := S (plugs e); teardowns := teardowns e;
                clock := clock e; timers := timers e;
                nextTimer := nextTimer e; posted := posted e;
                disconnected := disconnected e; statsSubs := statsSubs e;
                enqueued := enqueued e; heap := heap e |} |}).

(** Calling a teardown procedure. *)
Definition call_teardown (t : nat) (e : Env) : Env :=
  {| tick := tick e; snapshotPlugin := snapshotPlugin e; plugs := plugs e;
     teardowns := teardowns e ++ [t]; clock := clock e; timers := timers e;
     nextTimer := nextTimer e; posted := posted e;
     disconnected := disconnected e; statsSubs := statsSubs e;
     enqueued := enqueued e; heap := heap e |}.

Definition elapse (d : nat) (e : Env) : Env :=
  {| tick := tick e; snapshotPlugin := snapshotPlugin e; plugs := plugs e;
     teardowns := teardowns e; clock := clock e + d; timers := timers e;
     nextTimer := nextTimer e; posted := posted e;
     disconnected := disconnected e; statsSubs := statsSubs e;
     enqueued := enqueued e; heap := heap e |}.

Definition set_timers (ts : list (nat * nat)) (e : Env) : Env :=
  {| tick := tick e; snapshotPlugin := snapshotPlugin e; plugs := plugs e;
     teardowns := teardowns e; clock := clock e; timers := ts;
     nextTimer := nextTimer e; posted := posted e;
     disconnected := disconnected e; statsSubs := statsSubs e;
     enqueued := enqueued e; heap := heap e |}.

(** [setTimeout(callback, delay)]: the only callback ever armed is the
    flush of the batch, so a timer is its id and the time it is due. *)
Definition setTimeout (delay : nat) (w : World) : nat * World :=
  let e := env w in
  (nextTimer e,
   {| dev := dev w;
      env := {| tick := tick e; snapshotPlugin := snapshotPlugin e;
                plugs := plugs e; teardowns := teardowns e;
                clock := clock e;
                timers := timers e ++ [(nextTimer e, clock e + delay)];
                nextTimer := S (nextTimer e); posted := posted e;
                disconnected := disconnected e; statsSubs := statsSubs e;
                enqueued := enqueued e; heap := heap e |} |}).

Definition timer_is (id : nat) (t : nat * nat) : bool := Nat.eqb (fst t) id.

Definition clearTimeout (id : nat) (w : World) : World :=
  with_env
    (fun e => set_timers (List.filter (fun t => negb (timer_is id t)) (timers e)) e)
    w.

(** [connection.post(message)] *)
Definition post (message : Message) (e : Env) : Env :=
  {| tick := tick e; snapshotPlugin := snapshotPlugin e; plugs := plugs e;
     teardowns := teardowns e; clock := clock e; timers := timers e;
     nextTimer := nextTimer e; posted := posted e ++ [message];
     disconnected := disconnected e; statsSubs := statsSubs e;
     enqueued := enqueued e; heap := heap e |}.

(** [connection.disconnect()] *)
Definition disconnect (e : Env) : Env :=
  {| tick := tick e; snapshotPlugin := snapshotPlugin e; plugs := plugs e;
     teardowns := teardowns e; clock := clock e; timers := timers e;
     nextTimer := nextTimer e; posted := posted e;
     disconnected := true; statsSubs := statsSubs e;
     enqueued := enqueued e; heap := heap e |}.

(** [deck.stats.pipe(hide()).subscribe(...)] for the deck of [spyId]. *)
Definition subscribe_stats (spyId : string) (e : Env) : Env :=
  {| tick := tick e; snapshotPlugin := snapshotPlugin e; plugs := plugs e;
     teardowns := teardowns e; clock := clock e; timers := timers e;
     nextTimer := nextTimer e; posted := posted e;
     disconnected := disconnected e; statsSubs := statsSubs e ++ [spyId];
     enqueued := enqueued e; heap := heap e |}.

(** The history of the calls to [batchMessage_]. *)
Definition note_enqueued (message : Message) (e : Env) : Env :=
  {| tick := tick e; snapshotPlugin := snapshotPlugin e; plugs := plugs e;
     teardowns := teardowns e; clock := clock e; timers := timers e;
     nextTimer := nextTimer e; posted := posted e;
     disconnected := disconnected e; statsSubs := statsSubs e;
     enqueued := enqueued e ++ [message]; heap := heap e |}.

(** A fresh object, as the literal [{}] makes one. *)
Definition fresh_object (w : World) : Obj * World :=
  let e := env w in
  (heap e,
   {| dev := dev w;
      env := {| tick := tick e; snapshotPlugin := snapshotPlugin e;
                plugs := plugs e; teardowns := teardowns e;
                clock := clock e; timers := timers e;
                nextTimer := nextTimer e; posted := posted e;
                disconnected := disconnected e; statsSubs := statsSubs e;
                enqueued := enqueued e; heap := S (heap e) |} |}).

(** ** Building the notification payload *)

Definition toGraph (subscriptionRef : SubscriptionRef) : option GraphPayload :=
  match getGraphRef subscriptionRef with
  | None => None
  | Some graphRef =>
      Some {| g_flats := map (fun r => identify (ref_self r)) (flats graphRef);
              g_flatsFlushed := flatsFlushed graphRef;
              g_rootSink := match rootSink graphRef with
                            | Some r => just (identify (subscription r))
                            | None => null
                            end;
              g_sink := match sink graphRef with
                        | Some r => just (identify (subscription r))
                        | None => null
                        end;
              g_sources := map (fun source => identify (subscription source))
                               (sources graphRef);
              g_sourcesFlushed := sourcesFlushed graphRef |}
  end.

Definition toValue (v : JsValue) : ValuePayload :=
  {| json := stringify v |}.

(** [`${prefix}-${notification}`] *)
Definition type_of (p : Prefix) (n : Notification) : string :=
  Prefix_str p +:+ "-" +:+ Notification_str n.

(** [toNotification_]: the payload, and the world in which the fresh
    object of [identify({})] has been made. *)
Definition toNotification_ (notificationRef : NotificationRef) (w : World)
  : NotificationPayload * World :=
  let r := ref notificationRef in
  let '(o, w') := fresh_object w in
  ({| n_id := identify o;
      n_observable := {| o_id := identify (observable r);
                         o_path := inferPath (observable r);
                         o_tag := orNull (read (observable r));
                         o_type := inferType (observable r) |};
      n_subscriber := {| s_id := identify (subscriber r) |};
      n_subscription := {| sub_error := error notificationRef;
                           sub_graph := orNull (toGraph r);
                           sub_id := identify (subscription r);
                           sub_stackTrace := orNull_any (getStackTrace r) |};
      n_tick := tick (env w);
      n_timestamp := clock (env w);
      n_type := type_of (prefix notificationRef) (notification notificationRef);
      n_value := match value notificationRef with
                 | JUndefined => None
                 | v => Some (toValue v)
                 end |},
   w').

(** ** Batching *)

(** [batchMessage_] *)
Definition batchMessage_ (message : Message) (w : World) : World :=
  let w := with_env (note_enqueued message) w in
  match batchTimeoutId_ (dev w) with
  | Some _ =>
      with_dev (fun d => set_batchQueue_ (batchQueue_ d ++ [message]) d) w
  | None =>
      let w := with_dev (set_batchQueue_ [message]) w in
      let '(id, w) := setTimeout BATCH_MILLISECONDS w in
      with_dev (set_batchTimeoutId_ (Some id)) w
  end.

(** The callback [batchMessage_] hands to [setTimeout]. *)
Definition batchTimeout_ (w : World) : World :=
  match connection_ (dev w) with
  | Some _ =>
      let w := with_env (post (MBatch (batchQueue_ (dev w)))) w in
      with_dev (fun d => set_batchQueue_ [] (set_batchTimeoutId_ None d)) w
  | None => w
  end.

(** [batchDeckStats_] *)
Definition batchDeckStats_ (stats : DeckStatsPayload) (w : World) : World :=
  let w :=
    with_dev
      (fun d =>
         set_batchQueue_
           (List.filter (other_deck_stats (stats_id stats)) (batchQueue_ d)) d)
      w in
  batchMessage_ (MBroadcast (BDeckStats stats)) w.

(** The [reduce] of [batchNotification_]: how many queued messages are
    notifications. *)
Definition count_notifications (queue : list Message) : nat :=
  fold_left (fun c message => if is_notification message then c + 1 else c)
            queue 0.

(** [batchNotification_] *)
Definition batchNotification_ (notificationRef : NotificationRef) (w : World)
  : World :=
  match connection_ (dev w) with
  | Some _ =>
      if snapshotHinted_ (dev w) then w
      else
        let count := count_notifications (batchQueue_ (dev w)) in
        if BATCH_NOTIFICATIONS <? count then
          let w :=
            with_dev
              (fun d =>
                 set_batchQueue_
                   (List.filter (fun message => negb (is_notification message))
                                (batchQueue_ d)) d)
              w in
          let w := batchMessage_ (MBroadcast BSnapshotHint) w in
          with_dev (set_snapshotHinted_ true) w
        else
          let '(n, w) := toNotification_ notificationRef w in
          batchMessage_ (MBroadcast (BNotification n)) w
  | None => w
  end.

(** ** The plugin host *)

(** [recordPlugin_] *)
Definition recordPlugin_ (spyId pluginId : string) (plugin : Plugin)
    (w : World) : World :=
  let '(teardown, w) := spy_plug w in
  with_dev
    (fun d =>
       set_plugins_
         (<[pluginId := {| rec_plugin := plugin; rec_pluginId := pluginId;
                           rec_spyId := spyId; rec_teardown := teardown |}]>
            (plugins_ d)) d)
    w.

(** [plugins_.get(id)], for an id that may be undefined. *)
Definition get_plugin (id : option string) (w : World) : option PluginRecord :=
  match id with
  | Some k => plugins_ (dev w) !! k
  | None => None
  end.

(** [teardownPlugin_] *)
Definition teardownPlugin_ (pluginId : option string) (w : World) : World :=
  match pluginId, get_plugin pluginId w with
  | Some k, Some record =>
      let w := with_env (call_teardown (rec_teardown record)) w in
      with_dev (fun d => set_plugins_ (delete k (plugins_ d)) d) w
  | _, _ => w
  end.

(** ** Requests *)

(** The cases of [switch (request.requestType)]. *)
Inductive RequestCase :=
| case_log
| case_log_teardown
| case_pause
| case_pause_command
| case_pause_teardown
| case_snapshot
| case_default.

Definition requestCase (requestType : string) : RequestCase :=
  if decide (requestType = "log") then case_log
  else if decide (requestType = "log-teardown") then case_log_teardown
  else if decide (requestType = "pause") then case_pause
  else if decide (requestType = "pause-command") then case_pause_command
  else if decide (requestType = "pause-teardown") then case_pause_teardown
  else if decide (requestType = "snapshot") then case_snapshot
  else case_default.

(** The cases of [switch (request["command"])]: a method of the deck,
    [inspect], or the default. *)
Inductive CommandCase :=
| command_deck (method : string)
| command_inspect
| command_default.

Definition deck_methods : list string :=
  ["clear"; "pause"; "resume"; "skip"; "step"].

Definition commandCase (command : option string) : CommandCase :=
  match command with
  | Some c =>
      if decide (c ∈ deck_methods) then command_deck c
      else if decide (c = "inspect") then command_inspect
      else command_default
  | None => command_default
  end.

(** What the projection of [map] does: it returns a response or throws. *)
Inductive Outcome :=
| Returned (response : Response)
| Thrown.

Definition with_error (e : string) (r : Response) : Response :=
  {| request := request r; res_error := Some e;
     res_pluginId := res_pluginId r; res_snapshot := res_snapshot r |}.

Definition with_pluginId (k : string) (r : Response) : Response :=
  {| request := request r; res_error := res_error r;
     res_pluginId := Some k; res_snapshot := res_snapshot r |}.

Definition with_snapshot (p : SnapshotPayload) (r : Response) : Response :=
  {| request := request r; res_error := res_error r;
     res_pluginId := res_pluginId r; res_snapshot := Some p |}.

(** The deck of a record's plugin is a shared object: a call on it shows
    in the record the map holds. *)
Definition store_deck (k : string) (record : PluginRecord) (spyId : string)
    (deck : Deck) (d : DevToolsPlugin) : DevToolsPlugin :=
  set_plugins_
    (<[k := {| rec_plugin := PausePlugin spyId deck;
               rec_pluginId := rec_pluginId record;
               rec_spyId := rec_spyId record;
               rec_teardown := rec_teardown record |}]> (plugins_ d)) d.

(** The response a request starts from. *)
Definition blank (req : Request) : Response :=
  {| request := req; res_error := None; res_pluginId := None;
     res_snapshot := None |}.

(** The [pause-command] case. *)
Definition pauseCommand (req : Request) (response : Response) (w : World)
  : World * Outcome :=
  match req_pluginId req, get_plugin (req_pluginId req) w with
  | Some k, Some pluginRecord =>
      match commandCase (command req) with
      | command_deck method =>
          match rec_plugin pluginRecord with
          | PausePlugin spyId deck =>
              let '(deck', emitted) := deck_call method deck in
              let w := with_dev (store_deck k pluginRecord spyId deck') w in
              (fold_left (fun w stats => batchDeckStats_ (toStats spyId stats) w)
                         emitted w,
               Returned response)
          | LogPlugin _ =>
              (* [deck] is undefined: the call throws a TypeError *)
              (w, Thrown)
          end
      | command_inspect => (w, Returned (with_error "Not implemented." response))
      | command_default => (w, Returned (with_error "Unexpected command." response))
      end
  | _, _ => (w, Returned response)
  end.

(** The projection of [map] in the constructor. *)
Definition respond (req : Request) (w : World) : World * Outcome :=
  let response := blank req in
  match requestCase (requestType req) with
  | case_log =>
      let w := recordPlugin_ (req_spyId req) (postId req)
                             (LogPlugin (req_spyId req)) w in
      (w, Returned (with_pluginId (postId req) response))
  | case_log_teardown =>
      (teardownPlugin_ (req_pluginId req) w, Returned response)
  | case_pause =>
      let plugin := PausePlugin (req_spyId req) (new_Deck (req_spyId req)) in
      let w := recordPlugin_ (req_spyId req) (postId req) plugin w in
      let w := with_env (subscribe_stats (req_spyId req)) w in
      (w, Returned (with_pluginId (postId req) response))
  | case_pause_command => pauseCommand req response w
  | case_pause_teardown =>
      (teardownPlugin_ (req_pluginId req) w, Returned response)
  | case_snapshot =>
      let w := with_dev (set_snapshotHinted_ false) w in
      match snapshotPlugin (env w) with
      | Some snapshot =>
          (w, Returned (with_snapshot (toSnapshot snapshot) response))
      | None =>
          (w, Returned (with_error "Cannot find snapshot plugin." response))
      end
  | case_default => (w, Returned (with_error "Unexpected request." response))
  end.

(** A request arrives on the connection: while the subscription to the
    responses is open, the response is computed and posted; a projection
    that throws ends the subscription. *)
Definition onRequest (req : Request) (w : World) : World :=
  if subscription_ (dev w) then
    match respond req w with
    | (w, Returned response) =>
        match connection_ (dev w) with
        | Some _ => with_env (post (MResponse response)) w
        | None => w
        end
    | (w, Thrown) => with_dev (set_subscription_ false) w
    end
  else w.

(** [teardown] *)
Definition teardown (w : World) : World :=
  let w :=
    match batchTimeoutId_ (dev w) with
    | Some id => with_dev (set_batchTimeoutId_ None) (clearTimeout id w)
    | None => w
    end in
  match connection_ (dev w) with
  | Some _ =>
      let w := with_env disconnect w in
      with_dev (fun d => set_subscription_ false (set_connection_ None d)) w
  | None => w
  end.

(** The constructor: with the extension present the plugin connects and
    subscribes to the requests, without it the plugin stays idle. *)
Definition initial_env (t : nat) (s : option Snapshot) : Env :=
  {| tick := t; snapshotPlugin := s; plugs := 0; teardowns := [];
     clock := 0; timers := []; nextTimer := 1; posted := [];
     disconnected := false; statsSubs := []; enqueued := []; heap := 0 |}.

Definition constructor (extension : bool) (t : nat) (s : option Snapshot)
  : World :=
  {| dev := {| batchQueue_ := []; batchTimeoutId_ := None;
               connection_ := if extension then Some connect else None;
               plugins_ := ∅; snapshotHinted_ := false;
               subscription_ := extension |};
     env := initial_env t s |}.

(** ** The event loop *)

(** Everything runs on one event loop: the spy calls a hook, a request
    arrives, a deck emits stats, a deck's state moves on, the spy's tick or
    its snapshot plugin changes, time passes, a due timer fires, or the
    plugin is torn down. *)
Inductive Event :=
| Hook (l : Lifecycle)
| Post (req : Request)
| StatsEmitted (spyId : string) (stats : DeckStats)
| DeckChanged (pluginId : string) (deck : Deck)
| SpyChanged (t : nat) (s : option Snapshot)
| Elapsed (d : nat)
| TimerFired (id : nat)
| Teardown.

(** A timer may fire once it is armed and its time has come. *)
Definition due (id : nat) (e : Env) : bool :=
  existsb (fun t => timer_is id t && (snd t <=? clock e)) (timers e).

Definition deckChanged (k : string) (deck : Deck) (w : World) : World :=
  match plugins_ (dev w) !! k with
  | Some record =>
      match rec_plugin record with
      | PausePlugin spyId _ => with_dev (store_deck k record spyId deck) w
      | LogPlugin _ => w
      end
  | None => w
  end.

Definition step (ev : Event) (w : World) : World :=
  match ev with
  | Hook l => batchNotification_ (notificationRef_of l) w
  | Post req => onRequest req w
  | StatsEmitted spyId stats =>
      if existsb (String.eqb spyId) (statsSubs (env w))
      then batchDeckStats_ (toStats spyId stats) w
      else w
  | DeckChanged k deck => deckChanged k deck w
  | SpyChanged t s => with_env (spy_changed t s) w
  | Elapsed d => with_env (elapse d) w
  | TimerFired id =>
      if due id (env w) then batchTimeout_ (clearTimeout id w) else w
  | Teardown => teardown w
  end.

Definition run (evs : list Event) (w : World) : World :=
  fold_left (fun w ev => step ev w) evs w.

(** The worlds the program can be in. *)
Inductive reachable : World -> Prop :=
| reachable_constructor extension t s :
    reachable (constructor extension t s)
| reachable_step ev w :
    reachable w -> reachable (step ev w).

(** ** Vocabulary of the properties *)

Definition is_snapshot_hint (message : Message) : bool :=
  bool_decide (broadcastType message = Some "snapshot-hint").

(** [message] is a deck-stats broadcast for deck [id]. *)
Definition is_deck_stats_for (id : string) (message : Message) : bool :=
  negb (other_deck_stats id message).

Definition is_snapshot_request (ev : Event) : bool :=
  match ev with
  | Post req =>
      match requestCase (requestType req) with
      | case_snapshot => true
      | _ => false
      end
  | _ => false
  end.

(** Events that neither flush the queue nor touch the deck-stats of deck
    [id]: hooks, stats of other decks, and time passing. *)
Definition leaves_deck_stats (id : string) (ev : Event) : bool :=
  match ev with
  | Hook _ => true
  | StatsEmitted spyId _ => negb (String.eqb spyId id)
  | Elapsed _ => true
  | SpyChanged _ _ => true
  | _ => false
  end.

(** The fields no batching method writes. *)
Definition host_view (w : World) :=
  (connection_ (dev w), plugins_ (dev w), snapshotHinted_ (dev w),
   subscription_ (dev w), plugs (env w), teardowns (env w), posted (env w)).

(** The window and its timer go together: with the connection up, a
    closed window has an empty queue; an armed timer is the one the plugin
    holds; and the requests are listened to only while connected. *)
Definition window_inv (w : World) : Prop :=
  (connection_ (dev w) <> None -> batchTimeoutId_ (dev w) = None ->
   batchQueue_ (dev w) = []) /\
  (forall t, t ∈ timers (env w) -> batchTimeoutId_ (dev w) = Some (fst t)) /\
  (subscription_ (dev w) = true -> connection_ (dev w) <> None).

(** The plugin map against the spy's books: [n] calls to [plug] so far,
    [ts] the teardown procedures already called.  No procedure was called
    twice, a recorded procedure was not called yet, and no two records share
    one. *)
Definition registry_ok (m : gmap string PluginRecord) (n : nat)
    (ts : list nat) : Prop :=
  NoDup ts /\
  (forall t, t ∈ ts -> t < n) /\
  (forall k r, m !! k = Some r -> rec_teardown r < n /\ rec_teardown r ∉ ts) /\
  (forall k1 k2 r1 r2, m !! k1 = Some r1 -> m !! k2 = Some r2 ->
                       rec_teardown r1 = rec_teardown r2 -> k1 = k2).

Definition teardown_inv (w : World) : Prop :=
  registry_ok (plugins_ (dev w)) (plugs (env w)) (teardowns (env w)).

(** The fields [window_inv] reads. *)
Definition window_view (w : World) :=
  (batchQueue_ (dev w), batchTimeoutId_ (dev w), connection_ (dev w),
   subscription_ (dev w), timers (env w)).

(** ** Vocabulary of the further properties *)

Definition is_broadcast (message : Message) : bool :=
  match message with
  | MBroadcast _ => true
  | _ => false
  end.

(** The messages that went out in batches, in the order they went out. *)
Definition batched (ms : list Message) : list Message :=
  flat_map (fun m => match m with
                     | MBatch messages => messages
                     | _ => []
                     end) ms.

(** What a queue may hold: broadcasts only, at most
    [BATCH_NOTIFICATIONS + 1] notifications, and for each deck at most one
    deck-stats message. *)
Definition queue_ok (q : list Message) : Prop :=
  Forall (fun m => is_broadcast m = true) q /\
  count_notifications q <= BATCH_NOTIFICATIONS + 1 /\
  forall id, length (List.filter (is_deck_stats_for id) q) <= 1.

(** What may be on the wire: a response, or a batch that is not empty and
    was a queue. *)
Definition posted_ok (m : Message) : Prop :=
  match m with
  | MBatch messages => messages <> [] /\ queue_ok messages
  | MBroadcast _ => False
  | MResponse _ => True
  end.

Definition batch_inv (w : World) : Prop :=
  queue_ok (batchQueue_ (dev w)) /\
  Forall posted_ok (posted (env w)) /\
  (snapshotHinted_ (dev w) = true ->
   count_notifications (batchQueue_ (dev w)) = 0) /\
  (connection_ (dev w) <> None -> batchTimeoutId_ (dev w) <> None ->
   batchQueue_ (dev w) <> []) /\
  sublist (batched (posted (env w)) ++ batchQueue_ (dev w)) (enqueued (env w)).

(** The timers against the clock: at most one is armed, none is due later
    than [BATCH_MILLISECONDS] from now, and while connected the timer of an
    open window is armed. *)
Definition timers_inv (w : World) : Prop :=
  length (timers (env w)) <= 1 /\
  (forall t, t ∈ timers (env w) ->
             snd t <= clock (env w) + BATCH_MILLISECONDS) /\
  (connection_ (dev w) <> None ->
   forall id, batchTimeoutId_ (dev w) = Some id ->
              exists d, timers (env w) = [(id, d)]).

(** A teardown procedure that [spy.plug] has returned, that was not called,
    and that no record holds any more. *)
Definition orphaned (t : nat) (w : World) : Prop :=
  t < plugs (env w) /\
  (t ∉ teardowns (env w)) /\
  forall k r, plugins_ (dev w) !! k = Some r -> rec_teardown r <> t.

(** The [type] each hook gives its notification. *)
Definition hook_type (l : Lifecycle) : string :=
  match l with
  | afterSubscribe _ => "after-subscribe"
  | afterUnsubscribe _ => "after-unsubscribe"
  | beforeComplete _ => "before-complete"
  | beforeError _ _ => "before-error"
  | beforeNext _ _ => "before-next"
  | beforeSubscribe _ => "before-subscribe"
  | beforeUnsubscribe _ => "before-unsubscribe"
  end.

(** The error strings a response can carry. *)
Definition response_errors : list string :=
  ["Not implemented."; "Unexpected command."; "Cannot find snapshot plugin.";
   "Unexpected request."].

(** The fields [batch_inv] reads. *)
Definition batch_view (w : World) :=
  (batchQueue_ (dev w), posted (env w), snapshotHinted_ (dev w),
   connection_ (dev w), batchTimeoutId_ (dev w), enqueued (env w)).

(** The fields [timers_inv] reads. *)
Definition timers_view (w : World) :=
  (timers (env w), clock (env w), connection_ (dev w), batchTimeoutId_ (dev w)).

(** The request types the projection knows. *)
Definition request_types : list string :=
  ["log"; "log-teardown"; "pause"; "pause-command"; "pause-teardown";
   "snapshot"].

(** The record a [log] or a [pause] request leaves in the map. *)
Definition recorded (req : Request) (w : World) : PluginRecord :=
  {| rec_plugin := if decide (requestType req = "log")
                   then LogPlugin (req_spyId req)
                   else PausePlugin (req_spyId req) (new_Deck (req_spyId req));
     rec_pluginId := postId req;
     rec_spyId := req_spyId req;
     rec_teardown := plugs (env w) |}.


(** The plugin as the constructor leaves it when the extension is not
    there, and a spy and a wire on which it has left no trace. *)
Definition idle (w : World) : Prop :=
  dev w = {| batchQueue_ := []; batchTimeoutId_ := None; connection_ := None;
             plugins_ := ∅; snapshotHinted_ := false;
             subscription_ := false |} /\
  posted (env w) = [] /\
  timers (env w) = [] /\
  enqueued (env w) = [] /\
  teardowns (env w) = [] /\
  plugs (env w) = 0 /\
  statsSubs (env w) = [] /\
  disconnected (env w) = false.
End DevTools.

(** ** A concrete setting

    Values for the constants and stand-ins for the collaborators, to run the
    model on examples. *)

Definition sample_constants : Constants :=
  {| BATCH_MILLISECONDS := 100; BATCH_NOTIFICATIONS := 150 |}.

Definition sample_stringify (v : JsValue) : string :=
  match v with
  | JUndefined => "undefined"
  | JNull => "null"
  | JBool true => "true"
  | JBool false => "false"
  | JNumber z => pretty z
  | JString s => s
  | JObject o => "{}"
  end.

(** A deck that is paused or not and tells so after each call. *)
Definition sample_deck_call (method : string) (paused : bool)
  : bool * list bool :=
  let paused' :=
    if decide (method = "pause") then true
    else if decide (method = "resume") then false
    else paused in
  (paused', [paused']).

Definition sample_collaborators : Collaborators :=
  {| Deck := bool; DeckStats := bool; Snapshot := nat; SnapshotPayload := nat;
     new_Deck := fun _ => false;
     deck_call := sample_deck_call;
     identify := fun o => pretty o;
     inferPath := fun _ => "/observable";
     inferType := fun _ => "observable";
     read := fun _ => None;
     getGraphRef := fun _ => None;
     getStackTrace := fun _ => JUndefined;
     stringify := sample_stringify;
     toSnapshot := fun n => n |}.

Definition sample_ref : SubscriptionRef :=
  {| ref_self := 10; observable := 11; subscriber := 12; subscription := 13 |}.

Section Sample.
#[local] Existing Instance sample_constants.
#[local] Existing Instance sample_collaborators.

Definition sample_hook : Lifecycle := beforeNext sample_ref (JNumber 3).

(** What the sample deck emits when paused and when running. *)
Definition stats_paused : DeckStats := true.
Definition stats_running : DeckStats := false.

Definition pause_request : Request :=
  {| requestType := "pause"; postId := "p1"; req_spyId := "s1";
     req_pluginId := None; command := None |}.

Definition snapshot_request : Request :=
  {| requestType := "snapshot"; postId := "p2"; req_spyId := "s1";
     req_pluginId := None; command := None |}.

Definition inspect_request : Request :=
  {| requestType := "pause-command"; postId := "p3"; req_spyId := "s1";
     req_pluginId := Some "p1"; command := Some "inspect" |}.

Definition bogus_request : Request :=
  {| requestType := "pause-command"; postId := "p5"; req_spyId := "s1";
     req_pluginId := Some "p1"; command := Some "rewind" |}.

(** The record the [pause] request leaves in the plugin map. *)
Definition pause_record : PluginRecord :=
  {| rec_plugin := PausePlugin "s1" false; rec_pluginId := "p1";
     rec_spyId := "s1"; rec_teardown := 0 |}.

Definition unknown_teardown_request : Request :=
  {| requestType := "pause-teardown"; postId := "p4"; req_spyId := "s1";
     req_pluginId := Some "p9"; command := None |}.

(** The plugin right after its constructor, the extension present and no
    snapshot plugin attached. *)
Definition world_connected : World := constructor true 0 None.

(** A pause plugin is recorded and its deck has emitted stats: the window
    is open and holds one deck-stats message. *)
Definition world_open : World :=
  run [Post pause_request; StatsEmitted "s1" stats_paused] world_connected.

(** The plugin is torn down, then the deck of the pause plugin emits stats
    and [BATCH_MILLISECONDS] pass. *)
Definition world_torn_down : World :=
  run [Post pause_request; Teardown; StatsEmitted "s1" stats_paused;
       Elapsed BATCH_MILLISECONDS] world_connected.


(** A teardown request for the plugin "p1". *)
Definition teardown_request : Request :=
  {| requestType := "pause-teardown"; postId := "p6"; req_spyId := "s1";
     req_pluginId := Some "p1"; command := None |}.

(** A request of a type the plugin does not know. *)
Definition unknown_request : Request :=
  {| requestType := "profile"; postId := "p7"; req_spyId := "s1";
     req_pluginId := None; command := None |}.

(** A [log] request that comes with the [postId] of the pause request. *)
Definition log_request_again : Request :=
  {| requestType := "log"; postId := "p1"; req_spyId := "s2";
     req_pluginId := None; command := None |}.

(** The queue of [world_open] one hook later. *)
Definition sample_batch : list Message :=
  batchQueue_ (dev (step (Hook sample_hook) world_open)).

(** [world_open] after one hook, the flush of its window, and a hook that
    opens the next window. *)
Definition world_flushed : World :=
  run [Hook sample_hook; Elapsed BATCH_MILLISECONDS; TimerFired 1;
       Hook sample_hook] world_open.
End Sample.

(** [world_open], [BATCH_NOTIFICATIONS + 1] hooks later, in the same
    window; and one hook after that. *)
Abbreviation world_full :=
  (run (Hook <$> replicate (BATCH_NOTIFICATIONS + 1) sample_hook) world_open).
Abbreviation world_hinted := (step (Hook sample_hook) world_full).

Section Properties.
Context `{K : Constants} `{C : Collaborators}.

(** [teardown] and the timer callback are a few nested tests: go through
    their cases. *)
Ltac teardown_cases := unfold teardown; by repeat (case_match; cbn).
Ltac timeout_cases w :=
  unfold batchTimeout_, clearTimeout; cbn; by destruct (connection_ (dev w)).

Lemma count_notifications_acc (q : list Message) (c : nat) :
  fold_left (fun c message => if is_notification message then c + 1 else c) q c
  = c + length (List.filter is_notification q).
Proof.
  revert c. induction q as [|m q IH]; intros c; cbn.
  - lia.
  - rewrite IH. destruct (is_notification m); cbn; lia.
Qed.

Lemma count_notifications_filter (q : list Message) :
  count_notifications q = length (List.filter is_notification q).
Proof. unfold count_notifications. by rewrite count_notifications_acc. Qed.

Lemma type_of_shape (p : Prefix) (n : Notification) :
  exists pre kind,
    pre ∈ ["before"; "after"] /\
    kind ∈ ["subscribe"; "unsubscribe"; "next"; "error"; "complete"] /\
    type_of p n = pre +:+ "-" +:+ kind.
Proof.
  exists (Prefix_str p), (Notification_str n).
  split; [destruct p; cbn; set_solver|].
  split; [destruct n; cbn; set_solver|]. reflexivity.
Qed.

(** [C3, as amended] For every hook, the payload's [type] is the hook's
    own prefix and notification, "<prefix>-<notification>": "before-next"
    for [beforeNext], "after-subscribe" for [afterSubscribe], and so on for
    the seven hooks; the prefix is one of before/after and the notification
    one of the five kinds.  Its [value] is present exactly for a [next]
    whose value is not [undefined], and is then the serialized value; for an
    [error] the error travels unserialized in [subscription.error] and
    [value] is absent, as it is for every other hook. *)
Theorem toNotification_type_value (l : Lifecycle) (w : World) :
  let p := fst (toNotification_ (notificationRef_of l) w) in
  n_type p = hook_type l /\
  (exists pre kind,
      pre ∈ ["before"; "after"] /\
      kind ∈ ["subscribe"; "unsubscribe"; "next"; "error"; "complete"] /\
      n_type p = pre +:+ "-" +:+ kind) /\
  match l with
  | beforeNext _ v =>
      n_value p = match v with
                  | JUndefined => None
                  | _ => Some {| json := stringify v |}
                  end
  | beforeError _ e =>
      n_value p = None /\ sub_error (n_subscription p) = e
  | _ => n_value p = None
  end.
Proof.
  cbn. split; [by destruct l|]. split; [apply type_of_shape|].
  destruct l as [| | | |r v| |]; cbn; auto. by destruct v.
Qed.

(** *** The batch window *)

Lemma batchMessage_open (message : Message) (w : World) (t : nat) :
  batchTimeoutId_ (dev w) = Some t ->
  batchMessage_ message w
  = with_dev (fun d => set_batchQueue_ (batchQueue_ d ++ [message]) d)
             (with_env (note_enqueued message) w).
Proof. intros H. unfold batchMessage_. cbn. by rewrite H. Qed.

Lemma batchMessage_closed (message : Message) (w : World) :
  batchTimeoutId_ (dev w) = None ->
  batchMessage_ message w
  = with_dev (set_batchTimeoutId_ (Some (nextTimer (env w))))
      (snd (setTimeout BATCH_MILLISECONDS
              (with_dev (set_batchQueue_ [message])
                        (with_env (note_enqueued message) w)))).
Proof. intros H. unfold batchMessage_. cbn. by rewrite H. Qed.

Lemma batchMessage_armed (message : Message) (w : World) :
  batchTimeoutId_ (dev (batchMessage_ message w)) <> None.
Proof.
  destruct (batchTimeoutId_ (dev w)) as [t|] eqn:E.
  - rewrite (batchMessage_open _ _ t E). cbn. by rewrite E.
  - by rewrite (batchMessage_closed _ _ E).
Qed.

Lemma batchMessage_many_open (ms : list Message) (w : World) :
  batchTimeoutId_ (dev w) <> None ->
  let w' := fold_left (fun w m => batchMessage_ m w) ms w in
  batchQueue_ (dev w') = batchQueue_ (dev w) ++ ms /\
  batchTimeoutId_ (dev w') = batchTimeoutId_ (dev w) /\
  connection_ (dev w') = connection_ (dev w) /\
  posted (env w') = posted (env w) /\
  timers (env w') = timers (env w) /\
  clock (env w') = clock (env w).
Proof.
  revert w. induction ms as [|m ms IH]; intros w Hopen; cbn.
  - by rewrite app_nil_r.
  - destruct (batchTimeoutId_ (dev w)) as [t|] eqn:E; [|done].
    destruct (IH (batchMessage_ m w)) as (Hq & Ht & Hc & Hp & Hts & Hcl);
      [apply batchMessage_armed|].
    cbn in Hq, Ht, Hc, Hp, Hts, Hcl. rewrite Hq, Ht, Hc, Hp, Hts, Hcl.
    rewrite (batchMessage_open _ _ t E). cbn.
    by rewrite E, <- app_assoc.
Qed.

Lemma due_last (id d : nat) (ts : list (nat * nat)) (e : Env) :
  timers e = ts ++ [(id, d)] -> d <= clock e -> due id e = true.
Proof.
  intros Hts Hd. unfold due. rewrite Hts, existsb_app. cbn.
  unfold timer_is. cbn. rewrite Nat.eqb_refl.
  apply Nat.leb_le in Hd. rewrite Hd. cbn. apply orb_true_r.
Qed.

(** [C4, as amended] A message enqueued while a window is open is
    appended to the queue and the timer is left alone; a message enqueued
    while none is open makes the queue that message alone and arms a timer
    due [BATCH_MILLISECONDS] from now.  The messages enqueued in a window
    sit in the queue in the order they came, and the window's timer is due
    once [BATCH_MILLISECONDS] have passed.  When a due timer fires and the
    connection is there, the whole queue is posted as one batch, the queue
    is emptied and the window closes; when the connection is gone, nothing
    is posted and queue and window stay as they are. *)
Theorem batchMessage_window (message : Message) (ms : list Message)
    (id d : nat) (w : World) :
  let w1 := batchMessage_ message w in
  let w2 := fold_left (fun w m => batchMessage_ m w) ms w1 in
  let w3 := step (Elapsed d) w2 in
  let w4 := step (TimerFired id) w3 in
  match batchTimeoutId_ (dev w) with
  | Some t =>
      batchQueue_ (dev w1) = batchQueue_ (dev w) ++ [message] /\
      batchTimeoutId_ (dev w1) = Some t /\
      timers (env w1) = timers (env w)
  | None =>
      batchQueue_ (dev w1) = [message] /\
      batchTimeoutId_ (dev w1) = Some (nextTimer (env w)) /\
      timers (env w1)
      = timers (env w) ++ [(nextTimer (env w), clock (env w) + BATCH_MILLISECONDS)]
  end /\
  (batchTimeoutId_ (dev w) = None ->
   batchQueue_ (dev w2) = message :: ms /\
   (BATCH_MILLISECONDS <= d -> due (nextTimer (env w)) (env w3) = true)) /\
  (due id (env w3) = true ->
   match connection_ (dev w2) with
   | Some _ =>
       posted (env w4) = posted (env w2) ++ [MBatch (batchQueue_ (dev w2))] /\
       batchQueue_ (dev w4) = [] /\
       batchTimeoutId_ (dev w4) = None
   | None =>
       posted (env w4) = posted (env w2) /\
       batchQueue_ (dev w4) = batchQueue_ (dev w2) /\
       batchTimeoutId_ (dev w4) = batchTimeoutId_ (dev w2)
   end).
Proof.
  cbn zeta. split; [|split].
  - destruct (batchTimeoutId_ (dev w)) as [t|] eqn:E.
    + rewrite (batchMessage_open _ _ t E). cbn. by rewrite E.
    + by rewrite (batchMessage_closed _ _ E).
  - intros E.
    destruct (batchMessage_many_open ms (batchMessage_ message w))
      as (Hq & _ & _ & _ & Hts & Hcl); [apply batchMessage_armed|].
    cbn zeta in Hq, Hts, Hcl. split.
    + rewrite Hq. by rewrite (batchMessage_closed _ _ E).
    + intros Hd.
      apply (due_last _ (clock (env w) + BATCH_MILLISECONDS) (timers (env w))).
      * cbn. rewrite Hts. by rewrite (batchMessage_closed _ _ E).
      * cbn. rewrite Hcl. rewrite (batchMessage_closed _ _ E). cbn. lia.
  - intros Hdue. cbn [step] in *. rewrite Hdue.
    unfold batchTimeout_, clearTimeout. cbn.
    by destruct (connection_ (dev _)).
Qed.

(** *** Deck stats *)

Lemma is_deck_stats_for_spec (id : string) (m : Message) :
  is_deck_stats_for id m = true <->
  exists s, m = MBroadcast (BDeckStats s) /\ stats_id s = id.
Proof.
  unfold is_deck_stats_for, other_deck_stats.
  destruct m as [ms|[n|s|]|r]; cbn; try (split; [done|by intros (? & ? & ?)]).
  rewrite (bool_decide_eq_true_2 (Some "deck-stats" = Some "deck-stats")) by done.
  cbn. rewrite negb_involutive. split.
  - intros H%bool_decide_eq_true. exists s. split; congruence.
  - intros (s' & [= ->] & <-). by apply bool_decide_eq_true.
Qed.

Lemma filter_filter_implied {A} (p q : A -> bool) (l : list A) :
  (forall x, p x = true -> q x = true) ->
  List.filter p (List.filter q l) = List.filter p l.
Proof.
  intros Hpq. induction l as [|x l IH]; cbn; [done|].
  destruct (q x) eqn:Eq; cbn.
  - by rewrite IH.
  - destruct (p x) eqn:Ep; [|done]. apply Hpq in Ep. congruence.
Qed.

Lemma filter_none {A} (p q : A -> bool) (l : list A) :
  (forall x, p x = true -> q x = false) ->
  List.filter p (List.filter q l) = [].
Proof.
  intros Hpq. induction l as [|x l IH]; cbn; [done|].
  destruct (q x) eqn:Eq; cbn; [|done].
  destruct (p x) eqn:Ep; [|done]. apply Hpq in Ep. congruence.
Qed.

Lemma batchDeckStats_queue (stats : DeckStatsPayload) (w : World) :
  batchQueue_ (dev (batchDeckStats_ stats w))
  = match batchTimeoutId_ (dev w) with
    | Some _ => List.filter (other_deck_stats (stats_id stats)) (batchQueue_ (dev w))
    | None => []
    end ++ [MBroadcast (BDeckStats stats)].
Proof.
  unfold batchDeckStats_, batchMessage_. cbn.
  by destruct (batchTimeoutId_ (dev w)).
Qed.

Lemma batchDeckStats_frame (stats : DeckStatsPayload) (w : World) :
  let w' := batchDeckStats_ stats w in
  batchTimeoutId_ (dev w') <> None /\
  connection_ (dev w') = connection_ (dev w) /\
  (batchTimeoutId_ (dev w) <> None ->
   batchTimeoutId_ (dev w') = batchTimeoutId_ (dev w)) /\
  posted (env w') = posted (env w).
Proof.
  unfold batchDeckStats_, batchMessage_. cbn.
  destruct (batchTimeoutId_ (dev w)) eqn:E; cbn; rewrite ?E; naive_solver.
Qed.

Lemma batchDeckStats_own (stats : DeckStatsPayload) (w : World) :
  List.filter (is_deck_stats_for (stats_id stats))
              (batchQueue_ (dev (batchDeckStats_ stats w)))
  = [MBroadcast (BDeckStats stats)].
Proof.
  rewrite batchDeckStats_queue, List.filter_app.
  assert (is_deck_stats_for (stats_id stats) (MBroadcast (BDeckStats stats)) = true)
    as Hown by (apply is_deck_stats_for_spec; eauto).
  cbn [List.filter]. rewrite Hown.
  destruct (batchTimeoutId_ (dev w)); [|done].
  rewrite filter_none; [done|].
  intros x Hx. unfold is_deck_stats_for in Hx. by destruct (other_deck_stats _ x).
Qed.

Lemma batchDeckStats_other (id : string) (stats : DeckStatsPayload) (w : World) :
  stats_id stats <> id ->
  batchTimeoutId_ (dev w) <> None ->
  List.filter (is_deck_stats_for id) (batchQueue_ (dev (batchDeckStats_ stats w)))
  = List.filter (is_deck_stats_for id) (batchQueue_ (dev w)).
Proof.
  intros Hne Hopen. rewrite batchDeckStats_queue, List.filter_app.
  destruct (batchTimeoutId_ (dev w)); [|done].
  assert (is_deck_stats_for id (MBroadcast (BDeckStats stats)) = false) as Hnot.
  { apply not_true_is_false. intros (s & [= <-] & ?)%is_deck_stats_for_spec. done. }
  cbn [List.filter]. rewrite Hnot, app_nil_r.
  apply filter_filter_implied.
  intros x (s & -> & Hs)%is_deck_stats_for_spec.
  unfold other_deck_stats. cbn.
  apply negb_true_iff, bool_decide_eq_false. congruence.
Qed.

(** *** The four ways of [batchNotification_] *)

Lemma batchNotification_idle (nref : NotificationRef) (w : World) :
  connection_ (dev w) = None -> batchNotification_ nref w = w.
Proof. intros H. unfold batchNotification_. by rewrite H. Qed.

Lemma batchNotification_suppressed (nref : NotificationRef) (w : World) :
  snapshotHinted_ (dev w) = true -> batchNotification_ nref w = w.
Proof.
  intros H. unfold batchNotification_. rewrite H.
  by destruct (connection_ (dev w)).
Qed.

Lemma batchNotification_collapse (nref : NotificationRef) (w : World) :
  connection_ (dev w) <> None ->
  snapshotHinted_ (dev w) = false ->
  BATCH_NOTIFICATIONS < count_notifications (batchQueue_ (dev w)) ->
  batchNotification_ nref w
  = with_dev (set_snapshotHinted_ true)
      (batchMessage_ (MBroadcast BSnapshotHint)
         (with_dev
            (fun d =>
               set_batchQueue_
                 (List.filter (fun message => negb (is_notification message))
                              (batchQueue_ d)) d)
            w)).
Proof.
  intros Hc Hh Hn. unfold batchNotification_.
  destruct (connection_ (dev w)); [|done]. rewrite Hh.
  apply Nat.ltb_lt in Hn. by rewrite Hn.
Qed.

Lemma batchNotification_accept (nref : NotificationRef) (w : World) :
  connection_ (dev w) <> None ->
  snapshotHinted_ (dev w) = false ->
  count_notifications (batchQueue_ (dev w)) <= BATCH_NOTIFICATIONS ->
  batchNotification_ nref w
  = batchMessage_ (MBroadcast (BNotification (fst (toNotification_ nref w))))
                  (snd (toNotification_ nref w)).
Proof.
  intros Hc Hh Hn. unfold batchNotification_.
  destruct (connection_ (dev w)); [|done]. rewrite Hh.
  apply Nat.ltb_ge in Hn. by rewrite Hn.
Qed.

(** What a hook does to an open window. *)
Lemma batchNotification_open (nref : NotificationRef) (w : World) (t : nat) :
  batchTimeoutId_ (dev w) = Some t ->
  let w' := batchNotification_ nref w in
  batchTimeoutId_ (dev w') = Some t /\
  connection_ (dev w') = connection_ (dev w) /\
  posted (env w') = posted (env w) /\
  (w' = w \/
   (snapshotHinted_ (dev w') = false /\
    batchQueue_ (dev w')
    = batchQueue_ (dev w)
        ++ [MBroadcast (BNotification (fst (toNotification_ nref w)))]) \/
   (snapshotHinted_ (dev w') = true /\
    batchQueue_ (dev w')
    = List.filter (fun message => negb (is_notification message))
                  (batchQueue_ (dev w))
        ++ [MBroadcast BSnapshotHint])).
Proof.
  intros Ht. cbn zeta.
  destruct (connection_ (dev w)) as [c|] eqn:Ec;
    [|rewrite batchNotification_idle by done; rewrite Ec; auto].
  destruct (snapshotHinted_ (dev w)) eqn:Eh;
    [rewrite batchNotification_suppressed by done; rewrite Ec; auto|].
  destruct (decide (BATCH_NOTIFICATIONS < count_notifications (batchQueue_ (dev w))))
    as [Hn|Hn].
  - rewrite batchNotification_collapse by (done || congruence).
    rewrite (batchMessage_open _ _ t) by done. cbn. rewrite Ht, Ec. auto 10.
  - rewrite batchNotification_accept by (done || congruence || lia).
    rewrite (batchMessage_open _ _ t) by done. cbn. rewrite Ht, Ec, Eh. auto 10.
Qed.

Lemma deck_stats_not_notification (id : string) (m : Message) :
  is_deck_stats_for id m = true -> negb (is_notification m) = true.
Proof. by intros (s & -> & _)%is_deck_stats_for_spec. Qed.

Lemma quiet_step (id : string) (ev : Event) (w : World) :
  leaves_deck_stats id ev = true ->
  batchTimeoutId_ (dev w) <> None ->
  let w' := step ev w in
  batchTimeoutId_ (dev w') <> None /\
  connection_ (dev w') = connection_ (dev w) /\
  posted (env w') = posted (env w) /\
  List.filter (is_deck_stats_for id) (batchQueue_ (dev w'))
  = List.filter (is_deck_stats_for id) (batchQueue_ (dev w)).
Proof.
  intros Hev Hopen. destruct ev as [l|req|spyId stats|k d|t s|d|t|]; try done.
  - destruct (batchTimeoutId_ (dev w)) as [t|] eqn:Et; [|done].
    destruct (batchNotification_open (notificationRef_of l) w t Et)
      as (Ht & Hc & Hp & [Hw|[[_ Hq]|[_ Hq]]]); cbn zeta in *; cbn [step].
    + rewrite Hw, Et. auto.
    + rewrite Ht, Hc, Hp, Hq, List.filter_app. cbn. by rewrite app_nil_r.
    + rewrite Ht, Hc, Hp, Hq, List.filter_app. cbn. rewrite app_nil_r.
      split_and!; try done.
      apply filter_filter_implied, deck_stats_not_notification.
  - cbn in Hev. apply negb_true_iff, String.eqb_neq in Hev.
    cbn [step]. destruct (existsb _ _); [|done].
    destruct (batchDeckStats_frame (toStats spyId stats) w) as (H1 & H2 & _ & H4).
    cbn zeta in *. split_and!; try done.
    by apply batchDeckStats_other.
Qed.

Lemma quiet_run (id : string) (evs : list Event) (w : World) :
  forallb (leaves_deck_stats id) evs = true ->
  batchTimeoutId_ (dev w) <> None ->
  let w' := run evs w in
  batchTimeoutId_ (dev w') <> None /\
  connection_ (dev w') = connection_ (dev w) /\
  posted (env w') = posted (env w) /\
  List.filter (is_deck_stats_for id) (batchQueue_ (dev w'))
  = List.filter (is_deck_stats_for id) (batchQueue_ (dev w)).
Proof.
  revert w. induction evs as [|ev evs IH]; intros w Hall Hopen; [done|].
  cbn in Hall. apply andb_true_iff in Hall as [Hev Hall].
  destruct (quiet_step id ev w Hev Hopen) as (H1 & H2 & H3 & H4).
  destruct (IH (step ev w) Hall H1) as (H1' & H2' & H3' & H4').
  cbn zeta in *. cbn [run fold_left]. fold (run evs (step ev w)).
  rewrite H2', H3', H4'. auto.
Qed.

(** [C5] Enqueuing a deck-stats broadcast for deck [id] first filters out
    of the queue every deck-stats message for [id]: the queue of an open
    window becomes the other messages followed by the new one, which is then
    the only deck-stats message for [id] in it.  Hence,
    when two deck-stats broadcasts for [id] are enqueued in one window,
    whatever hooks and stats of other decks come in between and after, the
    batch posted when the window's timer fires holds exactly one
    deck-stats message for [id], the second. *)
Theorem batchDeckStats_latest_only (id : string) (s1 s2 : DeckStats)
    (mid1 mid2 : list Event) (t : nat) (w : World) :
  connection_ (dev w) <> None ->
  forallb (leaves_deck_stats id) mid1 = true ->
  forallb (leaves_deck_stats id) mid2 = true ->
  let w1 := batchDeckStats_ (toStats id s1) w in
  let w2 := batchDeckStats_ (toStats id s2) (run mid1 w1) in
  let w3 := run mid2 w2 in
  let w4 := step (TimerFired t) w3 in
  batchQueue_ (dev w1)
  = match batchTimeoutId_ (dev w) with
    | Some _ => List.filter (other_deck_stats id) (batchQueue_ (dev w))
    | None => []
    end ++ [MBroadcast (BDeckStats (toStats id s1))] /\
  List.filter (is_deck_stats_for id) (batchQueue_ (dev w1))
  = [MBroadcast (BDeckStats (toStats id s1))] /\
  List.filter (is_deck_stats_for id) (batchQueue_ (dev w3))
  = [MBroadcast (BDeckStats (toStats id s2))] /\
  (due t (env w3) = true ->
   exists batch,
     posted (env w4) = posted (env w3) ++ [MBatch batch] /\
     List.filter (is_deck_stats_for id) batch
     = [MBroadcast (BDeckStats (toStats id s2))]).
Proof.
  intros Hc Hmid1 Hmid2. cbn zeta.
  set (w1 := batchDeckStats_ (toStats id s1) w).
  set (w2 := batchDeckStats_ (toStats id s2) (run mid1 w1)).
  destruct (batchDeckStats_frame (toStats id s1) w) as (Ho1 & Hc1 & _ & _).
  destruct (quiet_run id mid1 w1 Hmid1 Ho1) as (Ho1' & Hc1' & _ & _).
  destruct (batchDeckStats_frame (toStats id s2) (run mid1 w1)) as (Ho2 & Hc2 & _ & _).
  destruct (quiet_run id mid2 w2 Hmid2 Ho2) as (Ho3 & Hc3 & _ & Hq3).
  cbn zeta in *.
  assert (List.filter (is_deck_stats_for id) (batchQueue_ (dev (run mid2 w2)))
          = [MBroadcast (BDeckStats (toStats id s2))]) as Hlast.
  { rewrite Hq3. apply (batchDeckStats_own (toStats id s2)). }
  split_and!; [apply (batchDeckStats_queue (toStats id s1))
              |apply (batchDeckStats_own (toStats id s1))|done|].
  intros Hdue. exists (batchQueue_ (dev (run mid2 w2))). split; [|done].
  unfold step. rewrite Hdue. unfold batchTimeout_, clearTimeout. cbn.
  fold w1 w2.
  destruct (connection_ (dev (run mid2 w2))) eqn:E; [done|].
  subst w1 w2. congruence.
Qed.

(** *** What batching leaves alone *)

Lemma host_view_fields (w w' : World) :
  host_view w' = host_view w ->
  connection_ (dev w') = connection_ (dev w) /\
  plugins_ (dev w') = plugins_ (dev w) /\
  snapshotHinted_ (dev w') = snapshotHinted_ (dev w) /\
  subscription_ (dev w') = subscription_ (dev w) /\
  plugs (env w') = plugs (env w) /\
  teardowns (env w') = teardowns (env w) /\
  posted (env w') = posted (env w).
Proof. unfold host_view. intros [= -> -> -> -> -> -> ->]. auto 10. Qed.

Lemma batchMessage_host (m : Message) (w : World) :
  host_view (batchMessage_ m w) = host_view w.
Proof. unfold batchMessage_. cbn. by destruct (batchTimeoutId_ (dev w)). Qed.

Lemma batchDeckStats_host (stats : DeckStatsPayload) (w : World) :
  host_view (batchDeckStats_ stats w) = host_view w.
Proof. unfold batchDeckStats_. by rewrite batchMessage_host. Qed.

Lemma emitted_host (spyId : string) (emitted : list DeckStats) (w : World) :
  host_view (fold_left (fun w stats => batchDeckStats_ (toStats spyId stats) w)
                       emitted w)
  = host_view w.
Proof.
  revert w. induction emitted as [|s emitted IH]; intros w; cbn; [done|].
  by rewrite IH, batchDeckStats_host.
Qed.

(** *** After the connection is gone *)

Lemma respond_connection (req : Request) (w : World) :
  connection_ (dev (fst (respond req w))) = connection_ (dev w) /\
  posted (env (fst (respond req w))) = posted (env w).
Proof.
  unfold respond, pauseCommand, teardownPlugin_, recordPlugin_.
  repeat case_match; unfold spy_plug in *; simplify_eq/=; auto.
  match goal with
  | |- context [fold_left _ ?e ?w0] =>
      destruct (host_view_fields _ _ (emitted_host spyId e w0)) as (-> & _ & _ & _ & _ & _ & ->)
  end.
  auto.
Qed.

Lemma silent_step (ev : Event) (w : World) :
  connection_ (dev w) = None ->
  connection_ (dev (step ev w)) = None /\
  posted (env (step ev w)) = posted (env w).
Proof.
  intros Hc. destruct ev as [l|req|spyId stats|k d|t s|d|t|]; cbn [step].
  - by rewrite batchNotification_idle.
  - unfold onRequest. destruct (subscription_ (dev w)); [|done].
    destruct (respond_connection req w) as [Hc' Hp'].
    destruct (respond req w) as [w' [response|]]; cbn in *.
    + rewrite Hc', Hc. by rewrite Hc', Hp'.
    + by rewrite Hc', Hp'.
  - destruct (existsb _ _); [|done].
    destruct (host_view_fields _ _ (batchDeckStats_host (toStats spyId stats) w))
      as (-> & _ & _ & _ & _ & _ & ->).
    done.
  - unfold deckChanged. by repeat case_match.
  - done.
  - done.
  - destruct (due t (env w)); [|done].
    unfold batchTimeout_, clearTimeout. cbn. by rewrite Hc.
  - teardown_cases.
Qed.

Lemma silent_run (evs : list Event) (w : World) :
  connection_ (dev w) = None ->
  posted (env (run evs w)) = posted (env w).
Proof.
  revert w. induction evs as [|ev evs IH]; intros w Hc; [done|].
  destruct (silent_step ev w Hc) as [Hc' Hp'].
  cbn. fold (run evs (step ev w)). by rewrite IH.
Qed.

Lemma clearTimeout_disarms (id d : nat) (w : World) :
  (id, d) ∉ timers (env (clearTimeout id w)).
Proof.
  unfold clearTimeout. cbn. rewrite list_elem_of_In, List.filter_In.
  intros [_ H]. unfold timer_is in H. cbn in H.
  by rewrite Nat.eqb_refl in H.
Qed.


(** *** The window invariant *)

Lemma window_inv_view (w w' : World) :
  window_view w' = window_view w -> window_inv w -> window_inv w'.
Proof.
  unfold window_view, window_inv. intros [= -> -> -> -> ->]. done.
Qed.

Lemma window_inv_batchMessage_ (m : Message) (w : World) :
  window_inv w -> window_inv (batchMessage_ m w).
Proof.
  intros (H1 & H2 & H3). unfold window_inv, batchMessage_. cbn.
  destruct (batchTimeoutId_ (dev w)) as [t|] eqn:E; cbn; rewrite ?E.
  - split_and!; [done|exact H2|exact H3].
  - split_and!; [done| |exact H3].
    intros t [Ht| ->%list_elem_of_singleton]%elem_of_app; [|done].
    by apply H2 in Ht.
Qed.

Lemma window_inv_filter (p : Message -> bool) (w : World) :
  window_inv w ->
  window_inv
    (with_dev (fun d => set_batchQueue_ (List.filter p (batchQueue_ d)) d) w).
Proof.
  intros (H1 & H2 & H3). unfold window_inv. cbn. split_and!; [|done|done].
  intros Hc Ht. by rewrite H1.
Qed.

Lemma window_inv_batchDeckStats_ (stats : DeckStatsPayload) (w : World) :
  window_inv w -> window_inv (batchDeckStats_ stats w).
Proof.
  intros H. unfold batchDeckStats_.
  by apply window_inv_batchMessage_, window_inv_filter.
Qed.

Lemma window_inv_emitted (spyId : string) (emitted : list DeckStats) (w : World) :
  window_inv w ->
  window_inv (fold_left (fun w stats => batchDeckStats_ (toStats spyId stats) w)
                        emitted w).
Proof.
  revert w. induction emitted as [|s emitted IH]; intros w H; cbn; [done|].
  by apply IH, window_inv_batchDeckStats_.
Qed.

Lemma window_inv_batchNotification_ (nref : NotificationRef) (w : World) :
  window_inv w -> window_inv (batchNotification_ nref w).
Proof.
  intros H. unfold batchNotification_.
  destruct (connection_ (dev w)); [|done].
  destruct (snapshotHinted_ (dev w)); [done|].
  destruct (_ <? _).
  - eapply window_inv_view;
      [|apply window_inv_batchMessage_, window_inv_filter, H]. done.
  - unfold toNotification_, fresh_object.
    apply window_inv_batchMessage_. by eapply window_inv_view.
Qed.

Lemma window_inv_respond (req : Request) (w : World) :
  window_inv w -> window_inv (fst (respond req w)).
Proof.
  intros H. unfold respond, pauseCommand, teardownPlugin_, recordPlugin_.
  repeat case_match; unfold spy_plug in *; simplify_eq/=;
    try done; try (by eapply window_inv_view).
  apply window_inv_emitted. by eapply window_inv_view.
Qed.

Lemma due_armed (id : nat) (e : Env) :
  due id e = true -> exists d, (id, d) ∈ timers e.
Proof.
  unfold due. intros ([i d] & Hin & Hid)%existsb_exists.
  apply andb_true_iff in Hid as [Hid _]. unfold timer_is in Hid. cbn in Hid.
  apply Nat.eqb_eq in Hid as ->. exists d. by apply list_elem_of_In.
Qed.

Lemma clearTimeout_own (id : nat) (w : World) :
  (forall t, t ∈ timers (env w) -> batchTimeoutId_ (dev w) = Some (fst t)) ->
  batchTimeoutId_ (dev w) = Some id ->
  timers (env (clearTimeout id w)) = [].
Proof.
  intros H2 Hid. unfold clearTimeout. cbn.
  induction (timers (env w)) as [|[i d] ts IH]; [done|]. cbn.
  assert (Some id = Some i) as [= <-].
  { rewrite <- Hid. apply (H2 (i, d)). left. }
  unfold timer_is. cbn. rewrite Nat.eqb_refl. cbn.
  apply IH. intros t Ht. apply H2. by right.
Qed.

Lemma window_inv_step (ev : Event) (w : World) :
  window_inv w -> window_inv (step ev w).
Proof.
  intros H. destruct ev as [l|req|spyId stats|k d|t s|d|t|]; cbn [step].
  - by apply window_inv_batchNotification_.
  - unfold onRequest. destruct (subscription_ (dev w)); [|done].
    pose proof (window_inv_respond req w H) as H'.
    destruct (respond req w) as [w' [response|]]; cbn in H'.
    + destruct (connection_ (dev w')); [|done]. by eapply window_inv_view.
    + destruct H' as (H1 & H2 & H3). by split_and!.
  - destruct (existsb _ _); [|done]. by apply window_inv_batchDeckStats_.
  - unfold deckChanged. by repeat case_match.
  - by eapply window_inv_view.
  - by eapply window_inv_view.
  - destruct (due t (env w)) eqn:Hdue; [|done].
    destruct H as (H1 & H2 & H3).
    apply due_armed in Hdue as [d Hd].
    pose proof (H2 _ Hd) as Hid. cbn in Hid.
    pose proof (clearTimeout_own t w H2 Hid) as Hts.
    unfold clearTimeout in Hts. cbn in Hts.
    unfold batchTimeout_, window_inv, clearTimeout. cbn.
    destruct (connection_ (dev w)) eqn:Ec; cbn; rewrite ?Hts, ?Ec.
    + split_and!; [done|by intros ? ?%elem_of_nil|done].
    + split_and!; [done|by intros ? ?%elem_of_nil|done].
  - destruct H as (H1 & H2 & H3).
    assert (timers (env (match batchTimeoutId_ (dev w) with
                         | Some id => with_dev (set_batchTimeoutId_ None)
                                               (clearTimeout id w)
                         | None => w
                         end)) = []) as Hts.
    { destruct (batchTimeoutId_ (dev w)) as [id|] eqn:E in |- *.
      - exact (clearTimeout_own id w H2 E).
      - destruct (timers (env w)) as [|t ts]; [done|].
        specialize (H2 t). rewrite E in H2. discriminate H2. left. }
    unfold teardown, window_inv.
    destruct (batchTimeoutId_ (dev w)) as [id|] eqn:E;
      cbn in Hts |- *; destruct (connection_ (dev w)) eqn:Ec; cbn;
      rewrite ?Hts, ?Ec, ?E;
      (split_and!; [done|by intros ? ?%elem_of_nil|done || exact H3]).
Qed.

Lemma reachable_window_inv (w : World) : reachable w -> window_inv w.
Proof.
  induction 1 as [extension t s|ev w _ IH].
  - unfold window_inv. cbn. split_and!; try done.
    + by intros ? ?%elem_of_nil.
    + by destruct extension.
  - by apply window_inv_step.
Qed.



(** *** The registry invariant *)

Lemma registry_ok_insert_new (m : gmap string PluginRecord) (n : nat)
    (ts : list nat) (k : string) (r : PluginRecord) :
  rec_teardown r = n ->
  registry_ok m n ts -> registry_ok (<[k := r]> m) (S n) ts.
Proof.
  intros Hr (Hnd & Hlt & Hrec & Hinj). split_and!.
  - done.
  - intros t Ht. apply Hlt in Ht. lia.
  - intros k' r' [[<- <-]|[Hne Hk']]%lookup_insert_Some.
    + split; [lia|]. intros Hin%Hlt. lia.
    + destruct (Hrec _ _ Hk'). split; [lia|done].
  - intros k1 k2 r1 r2 [[<- <-]|[Hne1 Hk1]]%lookup_insert_Some
                       [[<- <-]|[Hne2 Hk2]]%lookup_insert_Some Heq; try done.
    + destruct (Hrec _ _ Hk2). lia.
    + destruct (Hrec _ _ Hk1). lia.
    + by eapply Hinj.
Qed.

Lemma registry_ok_insert_same (m : gmap string PluginRecord) (n : nat)
    (ts : list nat) (k : string) (r r' : PluginRecord) :
  m !! k = Some r ->
  rec_teardown r' = rec_teardown r ->
  registry_ok m n ts -> registry_ok (<[k := r']> m) n ts.
Proof.
  intros Hk Hr (Hnd & Hlt & Hrec & Hinj). split_and!; try done.
  - intros k' r'' [[<- <-]|[Hne Hk']]%lookup_insert_Some.
    + rewrite Hr. by eapply Hrec.
    + by eapply Hrec.
  - intros k1 k2 r1 r2 [[<- <-]|[Hne1 Hk1]]%lookup_insert_Some
                       [[<- <-]|[Hne2 Hk2]]%lookup_insert_Some Heq; try done.
    + rewrite Hr in Heq. by eapply Hinj.
    + rewrite Hr in Heq. by eapply Hinj.
    + by eapply Hinj.
Qed.

Lemma registry_ok_delete (m : gmap string PluginRecord) (n : nat)
    (ts : list nat) (k : string) (r : PluginRecord) :
  m !! k = Some r ->
  registry_ok m n ts ->
  registry_ok (delete k m) n (ts ++ [rec_teardown r]).
Proof.
  intros Hk (Hnd & Hlt & Hrec & Hinj). destruct (Hrec _ _ Hk) as [Hn Hfresh].
  split_and!.
  - apply NoDup_app. split_and!; [done| |apply NoDup_singleton].
    intros t Ht ->%list_elem_of_singleton. done.
  - intros t [Ht| ->%list_elem_of_singleton]%elem_of_app; [by apply Hlt|done].
  - intros k' r' [Hne Hk']%lookup_delete_Some.
    destruct (Hrec _ _ Hk') as [? ?]. split; [done|].
    intros [Ht|Ht%list_elem_of_singleton]%elem_of_app; [done|].
    apply Hne. symmetry. by eapply Hinj.
  - intros k1 k2 r1 r2 [_ Hk1]%lookup_delete_Some [_ Hk2]%lookup_delete_Some.
    by eapply Hinj.
Qed.

Lemma teardown_inv_host (w w' : World) :
  host_view w' = host_view w -> teardown_inv w -> teardown_inv w'.
Proof.
  intros (_ & Hm & _ & _ & Hn & Hts & _)%host_view_fields.
  unfold teardown_inv. by rewrite Hm, Hn, Hts.
Qed.

Lemma batchNotification_host (nref : NotificationRef) (w : World) :
  let w' := batchNotification_ nref w in
  connection_ (dev w') = connection_ (dev w) /\
  plugins_ (dev w') = plugins_ (dev w) /\
  subscription_ (dev w') = subscription_ (dev w) /\
  plugs (env w') = plugs (env w) /\
  teardowns (env w') = teardowns (env w) /\
  posted (env w') = posted (env w).
Proof.
  cbn zeta. unfold batchNotification_.
  destruct (connection_ (dev w)) eqn:Ec; [|by rewrite Ec].
  destruct (snapshotHinted_ (dev w)); [by rewrite Ec|].
  destruct (_ <? _); unfold toNotification_, fresh_object; cbn;
    match goal with
    | |- context [batchMessage_ ?m ?w0] =>
        destruct (host_view_fields _ _ (batchMessage_host m w0))
          as (Hc & Hm & _ & Hs & Hn & Ht & Hp)
    end;
    rewrite Hc, Hm, Hs, Hn, Ht, Hp; cbn; by rewrite Ec.
Qed.

Lemma teardown_inv_respond (req : Request) (w : World) :
  teardown_inv w -> teardown_inv (fst (respond req w)).
Proof.
  intros H. unfold respond, pauseCommand, teardownPlugin_, recordPlugin_, get_plugin.
  repeat case_match; unfold spy_plug in *; simplify_eq/=; try done.
  - by apply registry_ok_insert_new.
  - by apply registry_ok_delete.
  - by apply registry_ok_insert_new.
  - eapply teardown_inv_host; [apply emitted_host|].
    by eapply registry_ok_insert_same.
  - by apply registry_ok_delete.
Qed.

Lemma teardown_inv_step (ev : Event) (w : World) :
  teardown_inv w -> teardown_inv (step ev w).
Proof.
  intros H. destruct ev as [l|req|spyId stats|k d|t s|d|t|]; cbn [step].
  - destruct (batchNotification_host (notificationRef_of l) w)
      as (_ & Hm & _ & Hn & Hts & _).
    unfold teardown_inv. cbn zeta in *. by rewrite Hm, Hn, Hts.
  - unfold onRequest. destruct (subscription_ (dev w)); [|done].
    pose proof (teardown_inv_respond req w H) as H'.
    destruct (respond req w) as [w' [response|]]; cbn in H'; [|done].
    by destruct (connection_ (dev w')).
  - destruct (existsb _ _); [|done].
    eapply teardown_inv_host; [apply batchDeckStats_host|done].
  - unfold deckChanged. repeat case_match; try done.
    by eapply registry_ok_insert_same.
  - done.
  - done.
  - destruct (due t (env w)); [|done].
    timeout_cases w.
  - teardown_cases.
Qed.

Lemma reachable_teardown_inv (w : World) : reachable w -> teardown_inv w.
Proof.
  induction 1 as [extension t s|ev w _ IH].
  - unfold teardown_inv, registry_ok. cbn. split_and!; try done.
    + apply NoDup_nil_2.
    + by intros ? ?%elem_of_nil.
  - by apply teardown_inv_step.
Qed.

(** *** Requests for plugins *)

Lemma teardownPlugin_absent (k : option string) (w : World) :
  get_plugin k w = None -> teardownPlugin_ k w = w.
Proof. intros H. unfold teardownPlugin_. destruct k; by rewrite ?H. Qed.

Lemma teardownPlugin_removes (k : option string) (w : World) :
  get_plugin k (teardownPlugin_ k w) = None.
Proof.
  unfold teardownPlugin_.
  destruct k as [k|]; [|done].
  destruct (get_plugin (Some k) w) as [r|] eqn:E; [|done].
  cbn. apply lookup_delete_eq.
Qed.

Lemma pauseCommand_absent (req : Request) (response : Response) (w : World) :
  get_plugin (req_pluginId req) w = None ->
  pauseCommand req response w = (w, Returned response).
Proof.
  intros H. unfold pauseCommand. destruct (req_pluginId req); by rewrite ?H.
Qed.

(** [C6] A pause-command request or a teardown request for a plugin id
    that is not in the plugin map leaves the whole world as it is and
    answers without an error; handling the request changes none of the
    plugin's fields (the response is posted, nothing else).  Tearing a
    plugin down a second time changes nothing, and in every reachable world
    no teardown procedure has been called twice. *)
Theorem absent_plugin_is_noop (req : Request) (k : option string) (w : World) :
  reachable w ->
  get_plugin (req_pluginId req) w = None ->
  requestType req ∈ ["pause-command"; "log-teardown"; "pause-teardown"] ->
  respond req w = (w, Returned (blank req)) /\
  res_error (blank req) = None /\
  dev (step (Post req) w) = dev w /\
  teardownPlugin_ k (teardownPlugin_ k w) = teardownPlugin_ k w /\
  NoDup (teardowns (env w)).
Proof.
  intros Hreach Habsent Hty.
  assert (respond req w = (w, Returned (blank req))) as Hres.
  { unfold respond. set_unfold in Hty.
    destruct Hty as [->|[->|[->|[]]]]; cbn.
    - by apply pauseCommand_absent.
    - by rewrite teardownPlugin_absent.
    - by rewrite teardownPlugin_absent. }
  split_and!; [done|done| | |].
  - cbn [step]. unfold onRequest. rewrite Hres.
    destruct (subscription_ (dev w)); [|done].
    by destruct (connection_ (dev w)).
  - apply teardownPlugin_absent, teardownPlugin_removes.
  - by destruct (reachable_teardown_inv w Hreach).
Qed.

(** [C7] For a pause-command request whose plugin id is in the plugin map,
    the command [inspect] is answered with the error "Not implemented." and
    any command that is neither a deck method nor [inspect] (or no command
    at all) with "Unexpected command.": the response echoes the request,
    its [error] is that string, and it has no [pluginId] and no snapshot.
    In both cases the world, and with it the deck, is left as it was,
    whatever the deck's state. *)
Theorem inspect_is_not_implemented (req : Request) (k : string)
    (record : PluginRecord) (w : World) :
  requestType req = "pause-command" ->
  req_pluginId req = Some k ->
  plugins_ (dev w) !! k = Some record ->
  (command req = Some "inspect" ->
   respond req w
   = (w, Returned {| request := req; res_error := Some "Not implemented.";
                     res_pluginId := None; res_snapshot := None |})) /\
  (command req ∉ (Some <$> "inspect" :: deck_methods) ->
   respond req w
   = (w, Returned {| request := req; res_error := Some "Unexpected command.";
                     res_pluginId := None; res_snapshot := None |})) /\
  (command req ∉ (Some <$> deck_methods) ->
   plugins_ (dev (step (Post req) w)) = plugins_ (dev w)).
Proof.
  intros Hty Hk Hrec.
  assert (forall c, commandCase (command req) = c ->
                    respond req w
                    = match c with
                      | command_deck method =>
                          pauseCommand req (blank req) w
                      | command_inspect =>
                          (w, Returned (with_error "Not implemented." (blank req)))
                      | command_default =>
                          (w, Returned (with_error "Unexpected command." (blank req)))
                      end) as Hcases.
  { intros c Hc. unfold respond. rewrite Hty. cbn.
    unfold pauseCommand, get_plugin. rewrite Hk, Hrec, Hc. by destruct c. }
  assert (command req ∉ (Some <$> "inspect" :: deck_methods) ->
          commandCase (command req) = command_default) as Hdefault.
  { intros Hnot. unfold commandCase.
    destruct (command req) as [c|]; [|done].
    destruct (decide (c ∈ deck_methods)) as [Hin|_].
    - exfalso. apply Hnot. apply list_elem_of_fmap. exists c. split; [done|].
      by right.
    - destruct (decide (c = "inspect")) as [->|_]; [|done].
      exfalso. apply Hnot. cbn. left. }
  split_and!.
  - intros Hc. apply (Hcases command_inspect). by rewrite Hc.
  - intros Hnot. by apply (Hcases command_default), Hdefault.
  - intros Hnot. cbn [step]. unfold onRequest.
    destruct (subscription_ (dev w)); [|done].
    assert (exists r, respond req w = (w, Returned r)) as [r ->].
    { unfold commandCase in Hcases.
      destruct (command req) as [c|];
        [|eexists; by apply (Hcases command_default)].
      destruct (decide (c ∈ deck_methods)) as [Hin|_].
      - exfalso. apply Hnot. apply list_elem_of_fmap. by exists c.
      - destruct (decide (c = "inspect")); eexists;
          [by apply (Hcases command_inspect)|by apply (Hcases command_default)]. }
    by destruct (connection_ (dev w)).
Qed.

(** *** The overload flag *)


Lemma respond_snapshot (req : Request) (w : World) :
  requestType req = "snapshot" ->
  respond req w
  = (with_dev (set_snapshotHinted_ false) w,
     Returned match snapshotPlugin (env w) with
              | Some snapshot => with_snapshot (toSnapshot snapshot) (blank req)
              | None => with_error "Cannot find snapshot plugin." (blank req)
              end).
Proof.
  intros Hty. unfold respond. rewrite Hty. cbn.
  by destruct (snapshotPlugin (env w)).
Qed.

Lemma batchMessage_enqueued (m : Message) (w : World) :
  enqueued (env (batchMessage_ m w)) = enqueued (env w) ++ [m].
Proof. unfold batchMessage_. cbn. by destruct (batchTimeoutId_ (dev w)). Qed.

Lemma batchDeckStats_hints (stats : DeckStatsPayload) (w : World) :
  List.filter is_snapshot_hint (enqueued (env (batchDeckStats_ stats w)))
  = List.filter is_snapshot_hint (enqueued (env w)).
Proof.
  unfold batchDeckStats_. rewrite batchMessage_enqueued, List.filter_app.
  cbn. by rewrite app_nil_r.
Qed.

Lemma emitted_hints (spyId : string) (emitted : list DeckStats) (w : World) :
  List.filter is_snapshot_hint
    (enqueued (env (fold_left
                      (fun w stats => batchDeckStats_ (toStats spyId stats) w)
                      emitted w)))
  = List.filter is_snapshot_hint (enqueued (env w)).
Proof.
  revert w. induction emitted as [|s emitted IH]; intros w; cbn; [done|].
  by rewrite IH, batchDeckStats_hints.
Qed.

(** A request other than [snapshot] neither writes the flag nor enqueues a
    hint. *)
Lemma respond_suppression (req : Request) (w : World) :
  requestCase (requestType req) <> case_snapshot ->
  snapshotHinted_ (dev (fst (respond req w))) = snapshotHinted_ (dev w) /\
  List.filter is_snapshot_hint (enqueued (env (fst (respond req w))))
  = List.filter is_snapshot_hint (enqueued (env w)).
Proof.
  intros Hty. unfold respond, pauseCommand, teardownPlugin_, recordPlugin_.
  repeat case_match; unfold spy_plug in *; simplify_eq/=; try done.
  rewrite emitted_hints.
  match goal with
  | |- context [fold_left _ ?e ?w0] =>
      destruct (host_view_fields _ _ (emitted_host spyId e w0))
        as (_ & _ & -> & _)
  end.
  done.
Qed.

Lemma suppressed_step (ev : Event) (w : World) :
  snapshotHinted_ (dev w) = true ->
  is_snapshot_request ev = false ->
  snapshotHinted_ (dev (step ev w)) = true /\
  List.filter is_snapshot_hint (enqueued (env (step ev w)))
  = List.filter is_snapshot_hint (enqueued (env w)).
Proof.
  intros Hh Hev. destruct ev as [l|req|spyId stats|k d|t s|d|t|]; cbn [step].
  - by rewrite batchNotification_suppressed.
  - unfold onRequest. destruct (subscription_ (dev w)); [|done].
    destruct (respond_suppression req w) as [Hf Hq].
    { cbn in Hev. by destruct (requestCase (requestType req)). }
    destruct (respond req w) as [w' [response|]]; cbn in *.
    + rewrite <- Hh, <- Hf, <- Hq. by destruct (connection_ (dev w')).
    + by rewrite <- Hh, <- Hf, <- Hq.
  - destruct (existsb _ _); [|done].
    rewrite batchDeckStats_hints.
    by destruct (host_view_fields _ _ (batchDeckStats_host (toStats spyId stats) w))
      as (_ & _ & -> & _).
  - unfold deckChanged. by repeat case_match.
  - done.
  - done.
  - destruct (due t (env w)); [|done].
    timeout_cases w.
  - teardown_cases.
Qed.

Lemma suppressed_run (evs : list Event) (w : World) :
  snapshotHinted_ (dev w) = true ->
  forallb (fun ev => negb (is_snapshot_request ev)) evs = true ->
  snapshotHinted_ (dev (run evs w)) = true /\
  List.filter is_snapshot_hint (enqueued (env (run evs w)))
  = List.filter is_snapshot_hint (enqueued (env w)).
Proof.
  revert w. induction evs as [|ev evs IH]; intros w Hh Hall; [done|].
  cbn in Hall. apply andb_true_iff in Hall as [Hev%negb_true_iff Hall].
  destruct (suppressed_step ev w Hh Hev) as [Hh' Hq'].
  destruct (IH (step ev w) Hh' Hall) as [Hh'' Hq''].
  cbn. fold (run evs (step ev w)). by rewrite Hh'', Hq''.
Qed.

Lemma batchNotification_sets_flag (nref : NotificationRef) (w : World) :
  snapshotHinted_ (dev w) = false ->
  snapshotHinted_ (dev (batchNotification_ nref w)) = true ->
  connection_ (dev w) <> None /\
  BATCH_NOTIFICATIONS < count_notifications (batchQueue_ (dev w)).
Proof.
  intros Hh Hset.
  destruct (connection_ (dev w)) as [c|] eqn:Ec;
    [|rewrite batchNotification_idle in Hset by done; congruence].
  split; [done|].
  destruct (decide (BATCH_NOTIFICATIONS < count_notifications (batchQueue_ (dev w))))
    as [Hn|Hn]; [done|].
  rewrite batchNotification_accept in Hset by (done || congruence || lia).
  destruct (host_view_fields _ _
              (batchMessage_host
                 (MBroadcast (BNotification (fst (toNotification_ nref w))))
                 (snd (toNotification_ nref w)))) as (_ & _ & Hf & _).
  rewrite Hf in Hset. cbn in Hset. congruence.
Qed.

(** [C10] From the hook that sets the flag on, and as long as no snapshot
    request comes in, the flag stays set, exactly one snapshot-hint has been
    handed to [batchMessage_] (the one of the collapse), and every further
    hook returns at once and leaves the world as it is. *)
Theorem one_hint_per_suppression (l l' : Lifecycle) (evs : list Event)
    (w : World) :
  snapshotHinted_ (dev w) = false ->
  snapshotHinted_ (dev (step (Hook l) w)) = true ->
  forallb (fun ev => negb (is_snapshot_request ev)) evs = true ->
  let w' := run evs (step (Hook l) w) in
  snapshotHinted_ (dev w') = true /\
  List.filter is_snapshot_hint (enqueued (env w'))
  = List.filter is_snapshot_hint (enqueued (env w)) ++ [MBroadcast BSnapshotHint] /\
  step (Hook l') w' = w'.
Proof.
  intros Hh Hset Hall. cbn zeta.
  destruct (suppressed_run evs _ Hset Hall) as [Hh' Hq'].
  split_and!; [done| |by apply batchNotification_suppressed].
  rewrite Hq'. cbn [step] in *.
  destruct (batchNotification_sets_flag _ _ Hh Hset) as [Hc Hn].
  rewrite batchNotification_collapse by done. cbn.
  rewrite batchMessage_enqueued, List.filter_app. done.
Qed.


(** *** The overload policy *)

Lemma count_notifications_app (q : list Message) (m : Message) :
  count_notifications (q ++ [m])
  = count_notifications q + (if is_notification m then 1 else 0).
Proof.
  rewrite !count_notifications_filter, List.filter_app, length_app. cbn.
  by destruct (is_notification m).
Qed.

Lemma notification_is_notification (n : NotificationPayload) :
  is_notification (MBroadcast (BNotification n)) = true.
Proof. reflexivity. Qed.

Lemma count_notifications_positive (q : list Message) :
  0 < count_notifications q -> q <> [].
Proof. intros H ->. cbn in H. lia. Qed.

Lemma collapse_queue (nref : NotificationRef) (w : World) :
  window_inv w ->
  snapshotHinted_ (dev w) = false ->
  snapshotHinted_ (dev (batchNotification_ nref w)) = true ->
  batchQueue_ (dev (batchNotification_ nref w))
  = List.filter (fun message => negb (is_notification message))
                (batchQueue_ (dev w))
      ++ [MBroadcast BSnapshotHint].
Proof.
  intros (Hwin & _ & _) Hh Hset.
  destruct (batchNotification_sets_flag _ _ Hh Hset) as [Hc Hn].
  rewrite batchNotification_collapse by done.
  destruct (batchTimeoutId_ (dev w)) as [t|] eqn:Et.
  - rewrite (batchMessage_open _ _ t) by done. done.
  - exfalso. apply (count_notifications_positive (batchQueue_ (dev w))); [lia|].
    by apply Hwin.
Qed.

Lemma batchDeckStats_ignores_flag (stats : DeckStatsPayload) (b : bool)
    (w : World) :
  batchDeckStats_ stats (with_dev (set_snapshotHinted_ b) w)
  = with_dev (set_snapshotHinted_ b) (batchDeckStats_ stats w).
Proof.
  unfold batchDeckStats_, batchMessage_. cbn.
  by destruct (batchTimeoutId_ (dev w)).
Qed.

(** [C9] The overload policy leaves deck-stats alone.  In a reachable
    world, the hook that sets the flag turns the queue into its messages
    that are not notifications, in their order, followed by the hint.  And
    [batchDeckStats_] does not look at the flag: setting it before or after
    the call gives the same world, and a deck-stats broadcast that comes
    after the collapse is appended to the queue as usual. *)
Theorem overload_spares_deck_stats (nref : NotificationRef)
    (stats : DeckStatsPayload) (b : bool) (w : World) :
  reachable w ->
  snapshotHinted_ (dev w) = false ->
  snapshotHinted_ (dev (batchNotification_ nref w)) = true ->
  let w' := batchNotification_ nref w in
  batchQueue_ (dev w')
  = List.filter (fun message => negb (is_notification message))
                (batchQueue_ (dev w))
      ++ [MBroadcast BSnapshotHint] /\
  batchDeckStats_ stats (with_dev (set_snapshotHinted_ b) w)
  = with_dev (set_snapshotHinted_ b) (batchDeckStats_ stats w) /\
  batchQueue_ (dev (batchDeckStats_ stats w'))
  = List.filter (other_deck_stats (stats_id stats)) (batchQueue_ (dev w'))
      ++ [MBroadcast (BDeckStats stats)].
Proof.
  intros Hreach Hh Hset. cbn zeta.
  pose proof (reachable_window_inv w Hreach) as Hwin.
  split_and!.
  - by apply collapse_queue.
  - apply batchDeckStats_ignores_flag.
  - rewrite batchDeckStats_queue.
    destruct (batchNotification_sets_flag _ _ Hh Hset) as [Hc Hn].
    rewrite batchNotification_collapse by done. cbn.
    pose proof (batchMessage_armed (MBroadcast BSnapshotHint)
                  (with_dev
                     (fun d =>
                        set_batchQueue_
                          (List.filter (fun message => negb (is_notification message))
                                       (batchQueue_ d)) d)
                     w)) as Harmed.
    by destruct (batchTimeoutId_ _).
Qed.

Lemma accepted_run (ls : list Lifecycle) (w : World) (t : nat) :
  connection_ (dev w) <> None ->
  snapshotHinted_ (dev w) = false ->
  batchTimeoutId_ (dev w) = Some t ->
  count_notifications (batchQueue_ (dev w)) + length ls
  <= BATCH_NOTIFICATIONS + 1 ->
  let w' := run (Hook <$> ls) w in
  connection_ (dev w') = connection_ (dev w) /\
  snapshotHinted_ (dev w') = false /\
  batchTimeoutId_ (dev w') = Some t /\
  count_notifications (batchQueue_ (dev w'))
  = count_notifications (batchQueue_ (dev w)) + length ls /\
  List.filter (fun message => negb (is_notification message))
              (batchQueue_ (dev w'))
  = List.filter (fun message => negb (is_notification message))
                (batchQueue_ (dev w)).
Proof.
  revert w. induction ls as [|l ls IH]; intros w Hc Hh Ht Hn; cbn zeta.
  - cbn. split_and!; done || lia.
  - cbn in Hn.
    destruct (batchNotification_open (notificationRef_of l) w t Ht)
      as (Ht' & Hc' & _ & _).
    assert (batchNotification_ (notificationRef_of l) w
            = batchMessage_
                (MBroadcast (BNotification (fst (toNotification_ (notificationRef_of l) w))))
                (snd (toNotification_ (notificationRef_of l) w))) as Hacc
      by (apply batchNotification_accept; done || lia).
    assert (batchQueue_ (dev (batchNotification_ (notificationRef_of l) w))
            = batchQueue_ (dev w)
                ++ [MBroadcast (BNotification (fst (toNotification_ (notificationRef_of l) w)))]
            /\ snapshotHinted_ (dev (batchNotification_ (notificationRef_of l) w)) = false)
      as [Hq Hh'].
    { rewrite Hacc. rewrite (batchMessage_open _ _ t) by done. cbn. by rewrite Hh. }
    cbn zeta in *.
    destruct (IH (step (Hook l) w)) as (Hc'' & Hh'' & Ht'' & Hn'' & Hq'');
      cbn [step]; try done; try congruence.
    { rewrite Hq, count_notifications_app, notification_is_notification. lia. }
    cbn [fmap list_fmap run fold_left] in *.
    fold (run (Hook <$> ls) (step (Hook l) w)).
    cbn [step] in *.
    rewrite Hc'', Hh'', Ht'', Hn'', Hq'', Hq, count_notifications_app,
      List.filter_app.
    cbn [List.filter]. rewrite notification_is_notification. cbn.
    rewrite app_nil_r. split_and!; done || lia.
Qed.

(** [C1, as amended] In an open window with the connection up and the
    flag off, hooks are accepted until [BATCH_NOTIFICATIONS + 1]
    notifications are queued: the flag is still off then and no hint was
    queued.  The hook after those is the one that collapses: the queue
    becomes its messages that are not notifications followed by one
    snapshot-hint, the flag is set, and a further hook changes nothing.  A
    [snapshot] request that is handled clears the flag. *)
Theorem overload_collapses_past_threshold (ls : list Lifecycle)
    (l l' : Lifecycle) (req : Request) (t : nat) (w : World) :
  connection_ (dev w) <> None ->
  snapshotHinted_ (dev w) = false ->
  batchTimeoutId_ (dev w) = Some t ->
  count_notifications (batchQueue_ (dev w)) + length ls
  = BATCH_NOTIFICATIONS + 1 ->
  let w1 := run (Hook <$> ls) w in
  let w2 := step (Hook l) w1 in
  (snapshotHinted_ (dev w1) = false /\
   count_notifications (batchQueue_ (dev w1)) = BATCH_NOTIFICATIONS + 1 /\
   List.filter (fun message => negb (is_notification message))
               (batchQueue_ (dev w1))
   = List.filter (fun message => negb (is_notification message))
                 (batchQueue_ (dev w))) /\
  (batchQueue_ (dev w2)
   = List.filter (fun message => negb (is_notification message))
                 (batchQueue_ (dev w))
       ++ [MBroadcast BSnapshotHint] /\
   snapshotHinted_ (dev w2) = true /\
   step (Hook l') w2 = w2) /\
  (requestType req = "snapshot" -> subscription_ (dev w2) = true ->
   snapshotHinted_ (dev (step (Post req) w2)) = false).
Proof.
  intros Hc Hh Ht Hn. cbn zeta.
  destruct (accepted_run ls w t Hc Hh Ht) as (Hc1 & Hh1 & Ht1 & Hn1 & Hq1);
    [lia|]. cbn zeta in *.
  assert (step (Hook l) (run (Hook <$> ls) w)
          = with_dev (set_snapshotHinted_ true)
              (batchMessage_ (MBroadcast BSnapshotHint)
                 (with_dev
                    (fun d =>
                       set_batchQueue_
                         (List.filter (fun message => negb (is_notification message))
                                      (batchQueue_ d)) d)
                    (run (Hook <$> ls) w)))) as Hstep.
  { cbn [step]. apply batchNotification_collapse; [congruence|done|lia]. }
  assert (snapshotHinted_ (dev (step (Hook l) (run (Hook <$> ls) w))) = true)
    as Hh2 by (by rewrite Hstep).
  split_and!; try done.
  - lia.
  - rewrite Hstep, (batchMessage_open _ _ t) by done. cbn. by rewrite Hq1.
  - by apply batchNotification_suppressed.
  - intros Hty Hsub. clear Hstep Hh2.
    set (w2 := step (Hook l) (run (Hook <$> ls) w)) in *. clearbody w2.
    cbn [step]. unfold onRequest. rewrite Hsub.
    rewrite respond_snapshot by done. cbn.
    by destruct (connection_ (dev w2)).
Qed.

(** *** Teardown *)

Lemma reachable_run (evs : list Event) (w : World) :
  reachable w -> reachable (run evs w).
Proof.
  revert w. induction evs as [|ev evs IH]; intros w H; [done|].
  cbn. apply IH. by constructor.
Qed.

Lemma teardown_timers (w : World) :
  window_inv w -> timers (env (teardown w)) = [].
Proof.
  intros H. destruct (window_inv_step Teardown w H) as (_ & H2 & _).
  cbn [step] in H2.
  assert (batchTimeoutId_ (dev (teardown w)) = None) as Hn
    by teardown_cases.
  destruct (timers (env (teardown w))) as [|t ts]; [done|].
  specialize (H2 t). rewrite Hn in H2. discriminate H2. left.
Qed.

(** [C8] [teardown] cancels the armed batch timer (the timer id is
    cleared, the timer is no longer armed and, in a reachable world, no
    timer is left at all) and posts nothing; and after [teardown], whatever
    happens next -- time passing, timers firing, hooks, requests, stats --
    nothing is ever posted on the connection again, so the queue that was
    pending is never delivered. *)
Theorem teardown_discards_queue (evs : list Event) (w : World) :
  let w1 := teardown w in
  batchTimeoutId_ (dev w1) = None /\
  match batchTimeoutId_ (dev w) with
  | Some id => forall d, (id, d) ∉ timers (env w1)
  | None => True
  end /\
  (reachable w -> timers (env w1) = []) /\
  connection_ (dev w1) = None /\
  posted (env w1) = posted (env w) /\
  posted (env (run evs w1)) = posted (env w).
Proof.
  cbn zeta.
  assert (connection_ (dev (teardown w)) = None) as Hc
    by teardown_cases.
  assert (posted (env (teardown w)) = posted (env w)) as Hp
    by teardown_cases.
  split_and!; try done.
  - teardown_cases.
  - destruct (batchTimeoutId_ (dev w)) as [id|] eqn:E; [|done].
    intros d. unfold teardown. rewrite E.
    pose proof (clearTimeout_disarms id d w) as Hd.
    by repeat (case_match; cbn).
  - intros Hreach. by apply teardown_timers, reachable_window_inv.
  - by rewrite silent_run.
Qed.

(** ** Further properties *)

(** *** Lists of messages *)

Lemma filter_sublist {A} (p : A -> bool) (l : list A) :
  sublist (List.filter p l) l.
Proof.
  induction l as [|x l IH]; cbn; [constructor|].
  destruct (p x); by constructor.
Qed.

Lemma filter_filter_length {A} (p q : A -> bool) (l : list A) :
  length (List.filter p (List.filter q l)) <= length (List.filter p l).
Proof.
  induction l as [|x l IH]; cbn; [done|].
  destruct (q x); cbn; destruct (p x); cbn; lia.
Qed.

Lemma Forall_filter_bool {A} (P : A -> Prop) (p : A -> bool) (l : list A) :
  Forall P l -> Forall P (List.filter p l).
Proof.
  intros H. eapply Forall_impl; [|done].
  apply Forall_forall. intros x Hx%list_elem_of_In%List.filter_In.
  rewrite Forall_forall in H. apply H, list_elem_of_In, Hx.
Qed.

Lemma count_notifications_filter_le (p : Message -> bool) (q : list Message) :
  count_notifications (List.filter p q) <= count_notifications q.
Proof. rewrite !count_notifications_filter. apply filter_filter_length. Qed.

Lemma count_notifications_purged (q : list Message) :
  count_notifications
    (List.filter (fun message => negb (is_notification message)) q) = 0.
Proof.
  rewrite count_notifications_filter, filter_none; [done|].
  intros x Hx. by rewrite Hx.
Qed.

Lemma queue_ok_filter (p : Message -> bool) (q : list Message) :
  queue_ok q -> queue_ok (List.filter p q).
Proof.
  intros (Hb & Hn & Hs). split_and!.
  - by apply Forall_filter_bool.
  - pose proof (count_notifications_filter_le p q). lia.
  - intros id. pose proof (filter_filter_length (is_deck_stats_for id) p q).
    specialize (Hs id). lia.
Qed.

Lemma queue_ok_nil : queue_ok [].
Proof. split_and!; [constructor|cbn; lia|intros; cbn; lia]. Qed.

Lemma stats_not_notification (stats : DeckStatsPayload) :
  is_notification (MBroadcast (BDeckStats stats)) = false.
Proof. reflexivity. Qed.

Lemma hint_not_notification :
  is_notification (MBroadcast BSnapshotHint) = false.
Proof. reflexivity. Qed.

(** Appending a message that is not a deck-stats message. *)
Lemma queue_ok_snoc (q : list Message) (m : Message) :
  is_broadcast m = true ->
  (forall id, is_deck_stats_for id m = false) ->
  count_notifications (q ++ [m]) <= BATCH_NOTIFICATIONS + 1 ->
  queue_ok q -> queue_ok (q ++ [m]).
Proof.
  intros Hm Hnot Hn (Hb & _ & Hs). split_and!.
  - apply Forall_app. split; [done|]. by constructor.
  - done.
  - intros id. rewrite List.filter_app, length_app. cbn. rewrite Hnot. cbn.
    specialize (Hs id). lia.
Qed.

(** Appending the stats of a deck after the filter of [batchDeckStats_]. *)
Lemma queue_ok_stats (q : list Message) (stats : DeckStatsPayload) :
  queue_ok q ->
  queue_ok (List.filter (other_deck_stats (stats_id stats)) q
              ++ [MBroadcast (BDeckStats stats)]).
Proof.
  intros Hq. pose proof (queue_ok_filter (other_deck_stats (stats_id stats)) q Hq)
    as (Hb & Hn & Hs).
  split_and!.
  - apply Forall_app. split; [done|]. by constructor.
  - rewrite count_notifications_app, stats_not_notification. lia.
  - intros id. rewrite List.filter_app, length_app.
    destruct (decide (stats_id stats = id)) as [<-|Hne].
    + rewrite filter_none; [cbn; destruct (is_deck_stats_for _ _); cbn; lia|].
      intros x Hx. unfold is_deck_stats_for in Hx.
      by destruct (other_deck_stats _ x).
    + assert (is_deck_stats_for id (MBroadcast (BDeckStats stats)) = false)
        as Hnot.
      { apply not_true_is_false.
        intros (s & [= <-] & ?)%is_deck_stats_for_spec. done. }
      cbn [List.filter]. rewrite Hnot. cbn. specialize (Hs id). lia.
Qed.

(** *** The invariant of the queue and of the wire *)

Lemma batch_inv_view (w w' : World) :
  batch_view w' = batch_view w -> batch_inv w -> batch_inv w'.
Proof. unfold batch_view, batch_inv. intros [= -> -> -> -> -> ->]. done. Qed.

Lemma batchMessage_queue (m : Message) (w : World) :
  batchQueue_ (dev (batchMessage_ m w))
  = match batchTimeoutId_ (dev w) with
    | Some _ => batchQueue_ (dev w)
    | None => []
    end ++ [m].
Proof. unfold batchMessage_. cbn. by destruct (batchTimeoutId_ (dev w)). Qed.

(** One enqueue: [kept] is what is left of the queue, [m] comes behind. *)
Lemma batch_inv_enqueue (w w' : World) (kept : list Message) (m : Message) :
  batch_inv w ->
  sublist kept (batchQueue_ (dev w)) ->
  batchQueue_ (dev w') = kept ++ [m] ->
  posted (env w') = posted (env w) ->
  enqueued (env w') = enqueued (env w) ++ [m] ->
  queue_ok (kept ++ [m]) ->
  (snapshotHinted_ (dev w') = true -> count_notifications (kept ++ [m]) = 0) ->
  batch_inv w'.
Proof.
  intros (_ & Hp & _ & _ & Hsub) Hkept Hq Hposted Henq Hok Hhint.
  unfold batch_inv. rewrite Hq, Hposted, Henq. split_and!; try done.
  - intros _ _. by destruct kept.
  - rewrite app_assoc. apply sublist_app; [|done].
    etrans; [|exact Hsub]. by apply sublist_app.
Qed.

Lemma batch_inv_batchDeckStats_ (stats : DeckStatsPayload) (w : World) :
  batch_inv w -> batch_inv (batchDeckStats_ stats w).
Proof.
  intros Hinv. pose proof Hinv as (Hok & _ & Hhint & _).
  destruct (host_view_fields _ _ (batchDeckStats_host stats w))
    as (_ & _ & Hh & _ & _ & _ & Hp).
  assert (enqueued (env (batchDeckStats_ stats w))
          = enqueued (env w) ++ [MBroadcast (BDeckStats stats)]) as Henq
    by (unfold batchDeckStats_; by rewrite batchMessage_enqueued).
  set (kept := List.filter (other_deck_stats (stats_id stats))
                 match batchTimeoutId_ (dev w) with
                 | Some _ => batchQueue_ (dev w)
                 | None => []
                 end).
  assert (batchQueue_ (dev (batchDeckStats_ stats w))
          = kept ++ [MBroadcast (BDeckStats stats)]) as Hq.
  { rewrite batchDeckStats_queue. unfold kept.
    by destruct (batchTimeoutId_ (dev w)). }
  assert (sublist kept (batchQueue_ (dev w))) as Hkept.
  { unfold kept. destruct (batchTimeoutId_ (dev w)).
    - apply filter_sublist.
    - apply sublist_nil_l. }
  apply (batch_inv_enqueue w _ kept (MBroadcast (BDeckStats stats)));
    try done.
  - unfold kept. apply queue_ok_stats.
    destruct (batchTimeoutId_ (dev w)); [done|apply queue_ok_nil].
  - rewrite Hh. intros Hset%Hhint.
    rewrite count_notifications_app, stats_not_notification.
    pose proof (count_notifications_filter_le
                  (other_deck_stats (stats_id stats))
                  match batchTimeoutId_ (dev w) with
                  | Some _ => batchQueue_ (dev w)
                  | None => []
                  end) as Hle.
    unfold kept. destruct (batchTimeoutId_ (dev w)); cbn in Hle |- *; lia.
Qed.

Lemma batch_inv_emitted (spyId : string) (emitted : list DeckStats) (w : World) :
  batch_inv w ->
  batch_inv (fold_left (fun w stats => batchDeckStats_ (toStats spyId stats) w)
                       emitted w).
Proof.
  revert w. induction emitted as [|s emitted IH]; intros w H; cbn; [done|].
  by apply IH, batch_inv_batchDeckStats_.
Qed.

Lemma batch_inv_batchNotification_ (nref : NotificationRef) (w : World) :
  batch_inv w -> batch_inv (batchNotification_ nref w).
Proof.
  intros Hinv. pose proof Hinv as (Hok & _ & _ & _).
  destruct (connection_ (dev w)) as [c|] eqn:Ec;
    [|by rewrite batchNotification_idle].
  destruct (snapshotHinted_ (dev w)) eqn:Eh;
    [by rewrite batchNotification_suppressed|].
  destruct (decide (BATCH_NOTIFICATIONS < count_notifications (batchQueue_ (dev w))))
    as [Hn|Hn].
  - rewrite batchNotification_collapse by (done || congruence).
    set (kept := List.filter (fun message => negb (is_notification message))
                   match batchTimeoutId_ (dev w) with
                   | Some _ => batchQueue_ (dev w)
                   | None => []
                   end).
    assert (count_notifications (kept ++ [MBroadcast BSnapshotHint]) = 0)
      as Hzero.
    { rewrite count_notifications_app, hint_not_notification.
      unfold kept. rewrite count_notifications_purged. lia. }
    apply (batch_inv_enqueue w _ kept (MBroadcast BSnapshotHint)); try done.
    + unfold kept. destruct (batchTimeoutId_ (dev w));
        [apply filter_sublist|apply sublist_nil_l].
    + cbn. rewrite batchMessage_queue. unfold kept. cbn.
      by destruct (batchTimeoutId_ (dev w)).
    + cbn. by destruct (host_view_fields _ _
                          (batchMessage_host (MBroadcast BSnapshotHint)
                             (with_dev
                                (fun d =>
                                   set_batchQueue_
                                     (List.filter
                                        (fun message => negb (is_notification message))
                                        (batchQueue_ d)) d) w)))
        as (_ & _ & _ & _ & _ & _ & ->).
    + cbn. by rewrite batchMessage_enqueued.
    + apply queue_ok_snoc; [done|done|lia|].
      unfold kept. apply queue_ok_filter.
      destruct (batchTimeoutId_ (dev w)); [done|apply queue_ok_nil].
  - rewrite batchNotification_accept by (done || congruence || lia).
    set (n := fst (toNotification_ nref w)).
    set (kept := match batchTimeoutId_ (dev w) with
                 | Some _ => batchQueue_ (dev w)
                 | None => []
                 end).
    assert (count_notifications (kept ++ [MBroadcast (BNotification n)])
            <= BATCH_NOTIFICATIONS + 1) as Hcount.
    { rewrite count_notifications_app, notification_is_notification.
      unfold kept. destruct (batchTimeoutId_ (dev w)); cbn; lia. }
    apply (batch_inv_enqueue w _ kept (MBroadcast (BNotification n)));
      try done.
    + unfold kept. destruct (batchTimeoutId_ (dev w));
        [done|apply sublist_nil_l].
    + by rewrite batchMessage_queue.
    + by destruct (host_view_fields _ _
                     (batchMessage_host (MBroadcast (BNotification n))
                        (snd (toNotification_ nref w))))
        as (_ & _ & _ & _ & _ & _ & ->).
    + by rewrite batchMessage_enqueued.
    + apply queue_ok_snoc; [done|done|done|].
      unfold kept. destruct (batchTimeoutId_ (dev w)); [done|apply queue_ok_nil].
    + destruct (host_view_fields _ _
                  (batchMessage_host (MBroadcast (BNotification n))
                     (snd (toNotification_ nref w))))
        as (_ & _ & -> & _). cbn. congruence.
Qed.

Lemma batched_response (ms : list Message) (r : Response) :
  batched (ms ++ [MResponse r]) = batched ms.
Proof. unfold batched. rewrite flat_map_app. cbn. by rewrite app_nil_r. Qed.

Lemma batched_batch (ms l : list Message) :
  batched (ms ++ [MBatch l]) = batched ms ++ l.
Proof. unfold batched. rewrite flat_map_app. cbn. by rewrite app_nil_r. Qed.

Lemma batch_inv_respond (req : Request) (w : World) :
  batch_inv w -> batch_inv (fst (respond req w)).
Proof.
  intros H. unfold respond, pauseCommand, teardownPlugin_, recordPlugin_.
  repeat case_match; unfold spy_plug in *; simplify_eq/=;
    try done; try (by eapply batch_inv_view).
  - apply batch_inv_emitted. by eapply batch_inv_view.
  - destruct H as (? & ? & _ & ? & ?). by split_and!.
  - destruct H as (? & ? & _ & ? & ?). by split_and!.
Qed.

Lemma batch_inv_step (ev : Event) (w : World) :
  window_inv w -> batch_inv w -> batch_inv (step ev w).
Proof.
  intros Hwin H. destruct ev as [l|req|spyId stats|k d|t s|d|t|]; cbn [step].
  - by apply batch_inv_batchNotification_.
  - unfold onRequest. destruct (subscription_ (dev w)); [|done].
    pose proof (batch_inv_respond req w H) as H'.
    destruct (respond req w) as [w' [response|]]; cbn in H'; [|done].
    destruct (connection_ (dev w')); [|done].
    destruct H' as (H1 & H2 & H3 & H4 & H5).
    assert (posted (env (with_env (post (MResponse response)) w'))
            = posted (env w') ++ [MResponse response]) as Hp by reflexivity.
    unfold batch_inv. rewrite Hp, batched_response. split_and!; try done.
    apply Forall_app. split; [done|]. by constructor.
  - destruct (existsb _ _); [|done]. by apply batch_inv_batchDeckStats_.
  - unfold deckChanged. by repeat case_match.
  - done.
  - done.
  - destruct (due t (env w)) eqn:Hdue; [|done].
    destruct Hwin as (_ & Hw2 & _). destruct H as (H1 & H2 & H3 & H4 & H5).
    apply due_armed in Hdue as [d Hd].
    pose proof (Hw2 _ Hd) as Hid. cbn in Hid.
    unfold batchTimeout_, clearTimeout.
    cbn [dev env with_dev with_env connection_].
    destruct (connection_ (dev w)) eqn:Ec; [|by split_and!].
    unfold batch_inv.
    cbn [dev env with_dev with_env post set_timers set_batchQueue_
         set_batchTimeoutId_ batchQueue_ posted snapshotHinted_ connection_
         batchTimeoutId_ enqueued].
    rewrite batched_batch, app_nil_r.
    split_and!; try done; try apply queue_ok_nil.
    apply Forall_app. split; [done|]. constructor; [|done].
    split; [|done]. apply H4; congruence.
  - destruct H as (H1 & H2 & H3 & H4 & H5).
    unfold teardown, batch_inv.
    repeat (case_match; cbn); split_and!; try done; congruence.
Qed.

Lemma reachable_batch_inv (w : World) : reachable w -> batch_inv w.
Proof.
  induction 1 as [extension t s|ev w Hw IH].
  - unfold batch_inv. cbn.
    split_and!; try done; try apply queue_ok_nil; constructor.
  - by apply batch_inv_step; [apply reachable_window_inv|].
Qed.

(** *** The invariant of the timers *)

Lemma timers_inv_view (w w' : World) :
  timers_view w' = timers_view w -> timers_inv w -> timers_inv w'.
Proof. unfold timers_view, timers_inv. intros [= -> -> -> ->]. done. Qed.

Lemma closed_window_no_timer (w : World) :
  window_inv w -> batchTimeoutId_ (dev w) = None -> timers (env w) = [].
Proof.
  intros (_ & H2 & _) Hnone.
  destruct (timers (env w)) as [|t ts]; [done|].
  specialize (H2 t). rewrite Hnone in H2. discriminate H2. left.
Qed.

Lemma timers_inv_batchMessage_ (m : Message) (w : World) :
  window_inv w -> timers_inv w -> timers_inv (batchMessage_ m w).
Proof.
  intros Hwin (H1 & H2 & H3).
  destruct (batchTimeoutId_ (dev w)) as [t|] eqn:E.
  - rewrite (batchMessage_open _ _ t E). unfold timers_inv. cbn.
    rewrite E. by split_and!.
  - pose proof (closed_window_no_timer w Hwin E) as Hts.
    rewrite (batchMessage_closed _ _ E). unfold timers_inv. cbn.
    rewrite Hts. cbn. split_and!.
    + done.
    + intros t ->%list_elem_of_singleton. done.
    + intros _ id [= <-]. eauto.
Qed.

Lemma timers_inv_batchDeckStats_ (stats : DeckStatsPayload) (w : World) :
  window_inv w -> timers_inv w -> timers_inv (batchDeckStats_ stats w).
Proof.
  intros Hwin H. unfold batchDeckStats_. apply timers_inv_batchMessage_.
  - by apply window_inv_filter.
  - by eapply timers_inv_view.
Qed.

Lemma timers_inv_emitted (spyId : string) (emitted : list DeckStats) (w : World) :
  window_inv w -> timers_inv w ->
  timers_inv (fold_left (fun w stats => batchDeckStats_ (toStats spyId stats) w)
                        emitted w).
Proof.
  revert w. induction emitted as [|s emitted IH]; intros w Hwin H; cbn; [done|].
  apply IH; [by apply window_inv_batchDeckStats_|by apply timers_inv_batchDeckStats_].
Qed.

Lemma timers_inv_batchNotification_ (nref : NotificationRef) (w : World) :
  window_inv w -> timers_inv w -> timers_inv (batchNotification_ nref w).
Proof.
  intros Hwin H. unfold batchNotification_.
  destruct (connection_ (dev w)); [|done].
  destruct (snapshotHinted_ (dev w)); [done|].
  destruct (_ <? _).
  - eapply timers_inv_view;
      [|apply timers_inv_batchMessage_;
        [apply window_inv_filter, Hwin|eapply timers_inv_view; [|exact H]]];
      done.
  - unfold toNotification_, fresh_object.
    apply timers_inv_batchMessage_;
      [eapply window_inv_view; [|exact Hwin]|eapply timers_inv_view; [|exact H]];
      done.
Qed.

Lemma timers_inv_respond (req : Request) (w : World) :
  window_inv w -> timers_inv w -> timers_inv (fst (respond req w)).
Proof.
  intros Hwin H. unfold respond, pauseCommand, teardownPlugin_, recordPlugin_.
  repeat case_match; unfold spy_plug in *; simplify_eq/=;
    try done; try (by eapply timers_inv_view).
  apply timers_inv_emitted;
    [eapply window_inv_view; [|exact Hwin]|eapply timers_inv_view; [|exact H]];
    done.
Qed.

Lemma timers_inv_step (ev : Event) (w : World) :
  window_inv w -> timers_inv w -> timers_inv (step ev w).
Proof.
  intros Hwin H. destruct ev as [l|req|spyId stats|k d|t s|d|t|]; cbn [step].
  - by apply timers_inv_batchNotification_.
  - unfold onRequest. destruct (subscription_ (dev w)); [|done].
    pose proof (timers_inv_respond req w Hwin H) as H'.
    destruct (respond req w) as [w' [response|]]; cbn in H'; [|done].
    by destruct (connection_ (dev w')).
  - destruct (existsb _ _); [|done]. by apply timers_inv_batchDeckStats_.
  - unfold deckChanged. by repeat case_match.
  - done.
  - destruct H as (H1 & H2 & H3). unfold timers_inv. cbn. split_and!; try done.
    intros t Ht%H2. lia.
  - destruct (due t (env w)) eqn:Hdue; [|done].
    pose proof Hwin as (_ & Hw2 & _).
    apply due_armed in Hdue as [d Hd].
    pose proof (Hw2 _ Hd) as Hid. cbn in Hid.
    pose proof (clearTimeout_own t w Hw2 Hid) as Hts.
    unfold clearTimeout in Hts. cbn in Hts.
    unfold batchTimeout_, timers_inv, clearTimeout. cbn.
    destruct (connection_ (dev w)) eqn:Ec; cbn; rewrite ?Hts, ?Ec; cbn;
      (split_and!; [lia|by intros ? ?%elem_of_nil|done]).
  - pose proof (teardown_timers w Hwin) as Hts.
    assert (connection_ (dev (teardown w)) = None) as Hc by teardown_cases.
    unfold timers_inv. rewrite Hts, Hc. cbn.
    split_and!; [lia|by intros ? ?%elem_of_nil|done].
Qed.

Lemma reachable_timers_inv (w : World) : reachable w -> timers_inv w.
Proof.
  induction 1 as [extension t s|ev w Hw IH].
  - unfold timers_inv. cbn. split_and!; [lia|by intros ? ?%elem_of_nil|done].
  - by apply timers_inv_step; [apply reachable_window_inv|].
Qed.

(** *** Requests *)

Lemma requestCase_spec (ty : string) :
  match requestCase ty with
  | case_log => ty = "log"
  | case_log_teardown => ty = "log-teardown"
  | case_pause => ty = "pause"
  | case_pause_command => ty = "pause-command"
  | case_pause_teardown => ty = "pause-teardown"
  | case_snapshot => ty = "snapshot"
  | case_default => ty ∉ request_types
  end.
Proof.
  unfold requestCase, request_types. repeat case_decide; try done.
  intros Hin. repeat (apply elem_of_cons in Hin as [->|Hin]; [done|]).
  by apply elem_of_nil in Hin.
Qed.

(** The response: what [respond] returns when it does not throw. *)
Lemma respond_record (req : Request) (w : World) :
  requestType req ∈ ["log"; "pause"] ->
  let w' := fst (respond req w) in
  snd (respond req w) = Returned (with_pluginId (postId req) (blank req)) /\
  plugins_ (dev w') = <[postId req := recorded req w]> (plugins_ (dev w)) /\
  plugs (env w') = S (plugs (env w)) /\
  teardowns (env w') = teardowns (env w) /\
  posted (env w') = posted (env w) /\
  connection_ (dev w') = connection_ (dev w) /\
  subscription_ (dev w') = subscription_ (dev w).
Proof.
  intros Hty. set_unfold in Hty. unfold respond, recorded.
  destruct Hty as [Hty|[Hty|[]]]; rewrite Hty; cbn; by split_and!.
Qed.


(** Handling a request: the world [respond] leaves, and the response
    posted. *)
Lemma onRequest_returned (req : Request) (w w' : World) (r : Response) :
  subscription_ (dev w) = true ->
  respond req w = (w', Returned r) ->
  connection_ (dev w') <> None ->
  onRequest req w = with_env (post (MResponse r)) w'.
Proof.
  intros Hsub Hres Hc. unfold onRequest. rewrite Hsub, Hres.
  by destruct (connection_ (dev w')).
Qed.


(** Membership of a string in a list of strings, both given. *)
Ltac literal_in := by repeat constructor.
Ltac literal_not_in :=
  let H := fresh in
  intros H; repeat (apply elem_of_cons in H as [[=]|H]);
  by apply elem_of_nil in H.

(** [X2] Whatever the request, a response echoes it, and its error is
    either absent or one of four strings.  The response carries a
    [pluginId] exactly for [log] and [pause] requests, a snapshot only for a
    [snapshot] request and never beside an error, and the error
    "Unexpected request." exactly when the request type is none of the six
    known, in which case the world is untouched. *)
Theorem response_error_surface (req : Request) (w w' : World) (r : Response) :
  respond req w = (w', Returned r) ->
  request r = req /\
  (res_error r = None \/
   exists e, e ∈ response_errors /\ res_error r = Some e) /\
  (is_Some (res_pluginId r) <-> requestType req ∈ ["log"; "pause"]) /\
  (is_Some (res_snapshot r) ->
   res_error r = None /\ requestType req = "snapshot") /\
  (res_error r = Some "Unexpected request." <->
   requestType req ∉ request_types) /\
  (requestType req ∉ request_types -> w' = w).
Proof.
  intros Hres. pose proof (requestCase_spec (requestType req)) as Hcase.
  unfold respond in Hres.
  destruct (requestCase (requestType req)) eqn:E.
  - (* log *)
    simplify_eq/=. rewrite Hcase. unfold request_types.
    split_and!; [done|by left|split; [literal_in|by eauto]
                |by intros [? [=]]|split; [done|intros Hn; destruct Hn; literal_in]
                |intros Hn; destruct Hn; literal_in].
  - (* log-teardown *)
    simplify_eq/=. rewrite Hcase. unfold request_types.
    split_and!; [done|by left|split; [by intros [? [=]]|literal_not_in]
                |by intros [? [=]]|split; [done|intros Hn; destruct Hn; literal_in]
                |intros Hn; destruct Hn; literal_in].
  - (* pause *)
    simplify_eq/=. rewrite Hcase. unfold request_types.
    split_and!; [done|by left|split; [literal_in|by eauto]
                |by intros [? [=]]|split; [done|intros Hn; destruct Hn; literal_in]
                |intros Hn; destruct Hn; literal_in].
  - (* pause-command *)
    rewrite Hcase. unfold request_types, response_errors.
    assert (request r = req /\ res_pluginId r = None /\ res_snapshot r = None /\
            (res_error r = None \/ res_error r = Some "Not implemented." \/
             res_error r = Some "Unexpected command.")) as (Hq & Hp & Hs & He).
    { unfold pauseCommand in Hres. repeat case_match; simplify_eq/=; auto 10. }
    rewrite Hp, Hs.
    split_and!; [done| |split; [by intros [? [=]]|literal_not_in]
                |by intros [? [=]]| |intros Hn; destruct Hn; literal_in].
    + destruct He as [He|[He|He]]; [by left|right; eexists; split; [|done]..];
        literal_in.
    + split; [|intros Hn; destruct Hn; literal_in].
      destruct He as [He|[He|He]]; rewrite He; done.
  - (* pause-teardown *)
    simplify_eq/=. rewrite Hcase. unfold request_types.
    split_and!; [done|by left|split; [by intros [? [=]]|literal_not_in]
                |by intros [? [=]]|split; [done|intros Hn; destruct Hn; literal_in]
                |intros Hn; destruct Hn; literal_in].
  - (* snapshot *)
    rewrite Hcase. unfold request_types, response_errors.
    destruct (snapshotPlugin _); simplify_eq/=.
    + split_and!; [done|by left|split; [by intros [? [=]]|literal_not_in]
                  |done|split; [done|intros Hn; destruct Hn; literal_in]
                  |intros Hn; destruct Hn; literal_in].
    + split_and!; [done|right; eexists; split; [literal_in|done]
                  |split; [by intros [? [=]]|literal_not_in]
                  |by intros [? [=]]|split; [done|intros Hn; destruct Hn; literal_in]
                  |intros Hn; destruct Hn; literal_in].
  - (* default *)
    simplify_eq/=. unfold response_errors.
    split_and!; [done|right; eexists; split; [literal_in|done]
                |split; [by intros [? [=]]|]
                |by intros [? [=]]|done|done].
    intros Hin. destruct Hcase. unfold request_types.
    apply elem_of_cons in Hin as [->|Hin]; [literal_in|].
    apply elem_of_cons in Hin as [->|Hin]; [literal_in|].
    by apply elem_of_nil in Hin.
Qed.


Lemma response_echo (req : Request) (w w' : World) (r : Response) :
  respond req w = (w', Returned r) -> request r = req.
Proof.
  unfold respond, pauseCommand. intros H.
  repeat case_match; by simplify_eq/=.
Qed.

Lemma respond_subscription (req : Request) (w : World) :
  subscription_ (dev (fst (respond req w))) = subscription_ (dev w).
Proof.
  unfold respond, pauseCommand, teardownPlugin_, recordPlugin_.
  repeat case_match; unfold spy_plug in *; simplify_eq/=; try done.
  match goal with
  | |- context [fold_left _ ?e ?w0] =>
      by destruct (host_view_fields _ _ (emitted_host spyId e w0))
        as (_ & _ & _ & -> & _)
  end.
Qed.

Lemma step_posts (ev : Event) (w : World) :
  exists ms, posted (env (step ev w)) = posted (env w) ++ ms /\ length ms <= 1.
Proof.
  destruct ev as [l|req|spyId stats|k d|t s|d|t|]; cbn [step].
  - exists []. destruct (batchNotification_host (notificationRef_of l) w)
      as (_ & _ & _ & _ & _ & Hp).
    cbn zeta in Hp. rewrite Hp, app_nil_r. auto.
  - unfold onRequest.
    destruct (subscription_ (dev w)); [|exists []; by rewrite app_nil_r; auto].
    destruct (respond_connection req w) as [_ Hp].
    destruct (respond req w) as [w' [response|]]; cbn in Hp.
    + destruct (connection_ (dev w')).
      * exists [MResponse response]. cbn. rewrite Hp. auto.
      * exists []. rewrite Hp, app_nil_r. auto.
    + exists []. cbn. rewrite Hp, app_nil_r. auto.
  - exists []. rewrite app_nil_r. split; [|cbn; lia].
    destruct (existsb _ _); [|done].
    by destruct (host_view_fields _ _ (batchDeckStats_host (toStats spyId stats) w))
      as (_ & _ & _ & _ & _ & _ & ->).
  - exists []. rewrite app_nil_r. split; [|cbn; lia].
    unfold deckChanged. by repeat case_match.
  - exists []. by rewrite app_nil_r; auto.
  - exists []. by rewrite app_nil_r; auto.
  - destruct (due t (env w)); [|exists []; by rewrite app_nil_r; auto].
    unfold batchTimeout_, clearTimeout. cbn.
    destruct (connection_ (dev w)).
    + exists [MBatch (batchQueue_ (dev w))]. auto.
    + exists []. cbn. rewrite app_nil_r. auto.
  - exists []. rewrite app_nil_r. split; [|cbn; lia]. teardown_cases.
Qed.

(** [X3] Each event posts at most one message, behind what was posted.
    In a reachable world that still listens, a request is answered by
    exactly one response, the one the projection returns, which echoes the
    request; if the projection throws, nothing is posted and the plugin
    stops listening. *)
Theorem request_answered_once (ev : Event) (req : Request) (w : World) :
  reachable w ->
  subscription_ (dev w) = true ->
  (exists ms, posted (env (step ev w)) = posted (env w) ++ ms /\ length ms <= 1) /\
  match snd (respond req w) with
  | Returned r =>
      posted (env (step (Post req) w)) = posted (env w) ++ [MResponse r] /\
      request r = req /\
      subscription_ (dev (step (Post req) w)) = true
  | Thrown =>
      posted (env (step (Post req) w)) = posted (env w) /\
      subscription_ (dev (step (Post req) w)) = false
  end.
Proof.
  intros Hreach Hsub. split; [apply step_posts|].
  destruct (reachable_window_inv w Hreach) as (_ & _ & Hconn).
  specialize (Hconn Hsub).
  destruct (respond_connection req w) as [Hc Hp].
  pose proof (respond_subscription req w) as Hs.
  cbn [step]. unfold onRequest. rewrite Hsub.
  destruct (respond req w) as [w' [r|]] eqn:E; cbn in *.
  - destruct (connection_ (dev w')); [|congruence].
    cbn. rewrite Hp, Hs. split_and!; try done.
    by apply (response_echo req w w' r).
  - by rewrite Hp.
Qed.

(** *** What the queue and the wire always look like *)

(** [X4] In every reachable world the queue holds at most
    [BATCH_NOTIFICATIONS + 1] notifications, and so does every batch that
    was posted. *)
Theorem notifications_bounded (batch : list Message) (w : World) :
  reachable w ->
  count_notifications (batchQueue_ (dev w)) <= BATCH_NOTIFICATIONS + 1 /\
  (MBatch batch ∈ posted (env w) ->
   count_notifications batch <= BATCH_NOTIFICATIONS + 1).
Proof.
  intros ((_ & Hn & _) & Hp & _)%reachable_batch_inv. split; [done|].
  intros Hin. rewrite Forall_forall in Hp.
  by destruct (Hp _ Hin) as (_ & _ & Hb & _).
Qed.

(** [X5] In every reachable world the queue holds broadcasts only, and
    what was posted is responses and batches; a batch is never empty and
    holds broadcasts only (no batch within a batch, no response within a
    batch, no broadcast outside a batch). *)
Theorem wire_shape (m : Message) (w : World) :
  reachable w ->
  (m ∈ batchQueue_ (dev w) -> is_broadcast m = true) /\
  (m ∈ posted (env w) ->
   match m with
   | MBatch messages =>
       messages <> [] /\ Forall (fun m => is_broadcast m = true) messages
   | MBroadcast _ => False
   | MResponse _ => True
   end).
Proof.
  intros ((Hb & _) & Hp & _)%reachable_batch_inv. split.
  - intros Hin. rewrite Forall_forall in Hb. by apply Hb.
  - intros Hin. rewrite Forall_forall in Hp. specialize (Hp _ Hin).
    destruct m as [l|b|r]; [|done..]. by destruct Hp as (? & ? & _).
Qed.

(** [X6] In every reachable world the queue holds, for each deck, at most
    one deck-stats message, and so does every batch that was posted. *)
Theorem one_deck_stats_per_deck (id : string) (batch : list Message)
    (w : World) :
  reachable w ->
  length (List.filter (is_deck_stats_for id) (batchQueue_ (dev w))) <= 1 /\
  (MBatch batch ∈ posted (env w) ->
   length (List.filter (is_deck_stats_for id) batch) <= 1).
Proof.
  intros ((_ & _ & Hs) & Hp & _)%reachable_batch_inv. split; [done|].
  intros Hin. rewrite Forall_forall in Hp.
  by destruct (Hp _ Hin) as (_ & _ & _ & Hb).
Qed.

Lemma filter_empty_Forall {A} (p : A -> bool) (l : list A) :
  length (List.filter p l) = 0 -> Forall (fun x => p x = false) l.
Proof.
  induction l as [|x l IH]; cbn; [constructor|].
  destruct (p x) eqn:E; cbn; [lia|]. intros H. constructor; auto.
Qed.

(** [X7] In every reachable world, while the flag is set the queue holds
    no notification: what is batched under suppression is the hint,
    deck-stats and nothing else. *)
Theorem suppressed_queue_has_no_notification (w : World) :
  reachable w ->
  snapshotHinted_ (dev w) = true ->
  Forall (fun m => is_notification m = false) (batchQueue_ (dev w)).
Proof.
  intros (_ & _ & Hh & _)%reachable_batch_inv Hset.
  apply filter_empty_Forall. rewrite <- count_notifications_filter. auto.
Qed.

(** [X8] In every reachable world, the messages posted in batches, batch
    after batch, followed by the messages waiting in the queue, are a
    subsequence of the messages handed to [batchMessage_]: messages go out
    in the order they were enqueued, none twice, and none that was not
    enqueued. *)
Theorem batches_keep_order (w : World) :
  reachable w ->
  sublist (batched (posted (env w)) ++ batchQueue_ (dev w)) (enqueued (env w)).
Proof. by intros (_ & _ & _ & _ & H)%reachable_batch_inv. Qed.

(** [X9] In every reachable world at most one timer is armed; an armed
    timer is the one the plugin holds and is due no later than
    [BATCH_MILLISECONDS] from now.  While connected, the queue is empty
    exactly when no window is open, and the timer of an open window is
    armed: no window is left without the timer that will flush it. *)
Theorem one_timer_per_window (w : World) :
  reachable w ->
  length (timers (env w)) <= 1 /\
  (forall id d, (id, d) ∈ timers (env w) ->
                batchTimeoutId_ (dev w) = Some id /\
                d <= clock (env w) + BATCH_MILLISECONDS) /\
  (connection_ (dev w) <> None ->
   (batchQueue_ (dev w) = [] <-> batchTimeoutId_ (dev w) = None) /\
   (forall id, batchTimeoutId_ (dev w) = Some id ->
               exists d, timers (env w) = [(id, d)])).
Proof.
  intros Hreach.
  destruct (reachable_window_inv w Hreach) as (Hw1 & Hw2 & _).
  destruct (reachable_timers_inv w Hreach) as (Ht1 & Ht2 & Ht3).
  destruct (reachable_batch_inv w Hreach) as (_ & _ & _ & Hb4 & _).
  split_and!.
  - done.
  - intros id d Hin. split; [apply (Hw2 _ Hin)|apply (Ht2 _ Hin)].
  - intros Hc. split; [|by apply Ht3].
    split.
    + intros Hq. destruct (batchTimeoutId_ (dev w)) eqn:E; [|done].
      destruct Hb4; done.
    + by apply Hw1.
Qed.

(** *** After teardown *)

Lemma deaf_step (ev : Event) (w : World) :
  subscription_ (dev w) = false ->
  subscription_ (dev (step ev w)) = false /\
  teardowns (env (step ev w)) = teardowns (env w) /\
  plugs (env (step ev w)) = plugs (env w) /\
  dom (plugins_ (dev (step ev w))) = dom (plugins_ (dev w)).
Proof.
  intros Hs. destruct ev as [l|req|spyId stats|k d|t s|d|t|]; cbn [step].
  - destruct (batchNotification_host (notificationRef_of l) w)
      as (_ & Hm & Hsub & Hn & Hts & _).
    cbn zeta in *. by rewrite Hm, Hsub, Hn, Hts.
  - unfold onRequest. by rewrite Hs.
  - destruct (existsb _ _); [|done].
    by destruct (host_view_fields _ _ (batchDeckStats_host (toStats spyId stats) w))
      as (_ & -> & _ & -> & -> & -> & _).
  - unfold deckChanged. destruct (plugins_ (dev w) !! k) as [r|] eqn:E; [|done].
    destruct (rec_plugin r); [done|]. cbn. split_and!; try done.
    by apply dom_insert_lookup_L.
  - done.
  - done.
  - destruct (due t (env w)); [|done].
    unfold batchTimeout_, clearTimeout. cbn.
    by destruct (connection_ (dev w)).
  - unfold teardown. by repeat (case_match; cbn).
Qed.

Lemma deaf_run (evs : list Event) (w : World) :
  subscription_ (dev w) = false ->
  subscription_ (dev (run evs w)) = false /\
  teardowns (env (run evs w)) = teardowns (env w) /\
  plugs (env (run evs w)) = plugs (env w) /\
  dom (plugins_ (dev (run evs w))) = dom (plugins_ (dev w)).
Proof.
  revert w. induction evs as [|ev evs IH]; intros w Hs; [done|].
  destruct (deaf_step ev w Hs) as (Hs' & Hts & Hn & Hd).
  destruct (IH (step ev w) Hs') as (Hs'' & Hts' & Hn' & Hd').
  cbn. fold (run evs (step ev w)). by rewrite Hs'', Hts', Hn', Hd', Hts, Hn, Hd.
Qed.

(** [X10] [teardown] does not touch the recorded plugins: the map is as it
    was and none of their teardown procedures is called.  A second
    [teardown] changes nothing.  And in a reachable world [teardown] is
    final: whatever comes after, no request is handled any more (a request
    leaves the world as it is), no plugin is recorded or removed, and no
    teardown procedure is ever called. *)
Theorem teardown_is_final (evs : list Event) (req : Request) (w : World) :
  reachable w ->
  let w' := run evs (teardown w) in
  (plugins_ (dev (teardown w)) = plugins_ (dev w) /\
   teardowns (env (teardown w)) = teardowns (env w) /\
   teardown (teardown w) = teardown w) /\
  (step (Post req) w' = w' /\
   teardowns (env w') = teardowns (env w) /\
   plugs (env w') = plugs (env w) /\
   dom (plugins_ (dev w')) = dom (plugins_ (dev w))).
Proof.
  intros Hreach. cbn zeta.
  destruct (reachable_window_inv w Hreach) as (_ & _ & Hsub).
  assert (plugins_ (dev (teardown w)) = plugins_ (dev w)) as Hm by teardown_cases.
  assert (teardowns (env (teardown w)) = teardowns (env w)) as Hts
    by teardown_cases.
  assert (plugs (env (teardown w)) = plugs (env w)) as Hn by teardown_cases.
  assert (subscription_ (dev (teardown w)) = false) as Hs.
  { unfold teardown. repeat (case_match; cbn); try done.
    all: destruct (subscription_ (dev w)); [by destruct Hsub|done]. }
  assert (batchTimeoutId_ (dev (teardown w)) = None) as Ht by teardown_cases.
  assert (connection_ (dev (teardown w)) = None) as Hc by teardown_cases.
  destruct (deaf_run evs (teardown w) Hs) as (Hs' & Hts' & Hn' & Hd').
  split_and!; try done.
  - unfold teardown at 1. by rewrite Ht, Hc.
  - cbn [step]. unfold onRequest. by rewrite Hs'.
  - by rewrite Hts'.
  - by rewrite Hn'.
  - by rewrite Hd', Hm.
Qed.

(** *** A record that is written over *)

Lemma orphaned_host (t : nat) (w w' : World) :
  host_view w' = host_view w -> orphaned t w -> orphaned t w'.
Proof.
  intros (_ & Hm & _ & _ & Hn & Hts & _)%host_view_fields.
  unfold orphaned. by rewrite Hm, Hn, Hts.
Qed.

Lemma orphaned_insert_new (t : nat) (k : string) (r : PluginRecord)
    (m : gmap string PluginRecord) (n : nat) :
  t < n -> rec_teardown r = n ->
  (forall k' r', m !! k' = Some r' -> rec_teardown r' <> t) ->
  forall k' r', <[k := r]> m !! k' = Some r' -> rec_teardown r' <> t.
Proof.
  intros Hlt Hr Hm k' r' [[-> <-]|[_ Hl]]%lookup_insert_Some; [lia|eauto].
Qed.

Lemma orphaned_insert_same (t : nat) (k : string) (r r0 : PluginRecord)
    (m : gmap string PluginRecord) :
  m !! k = Some r0 -> rec_teardown r = rec_teardown r0 ->
  (forall k' r', m !! k' = Some r' -> rec_teardown r' <> t) ->
  forall k' r', <[k := r]> m !! k' = Some r' -> rec_teardown r' <> t.
Proof.
  intros Hk Hr Hm k' r' [[-> <-]|[_ Hl]]%lookup_insert_Some; [|eauto].
  rewrite Hr. eauto.
Qed.

Lemma orphaned_delete (t : nat) (k : string) (m : gmap string PluginRecord) :
  (forall k' r', m !! k' = Some r' -> rec_teardown r' <> t) ->
  forall k' r', delete k m !! k' = Some r' -> rec_teardown r' <> t.
Proof. intros Hm k' r' [_ Hl]%lookup_delete_Some. eauto. Qed.

Lemma orphaned_called (t : nat) (r : PluginRecord) (k : string)
    (m : gmap string PluginRecord) (ts : list nat) :
  m !! k = Some r ->
  (forall k' r', m !! k' = Some r' -> rec_teardown r' <> t) ->
  t ∉ ts -> t ∉ ts ++ [rec_teardown r].
Proof.
  intros Hk Hm Hts [Hin|Hin]%elem_of_app; [done|].
  apply elem_of_cons in Hin as [Hin|Hin%elem_of_nil]; [|done].
  by apply (Hm k r).
Qed.

Lemma orphaned_respond (t : nat) (req : Request) (w : World) :
  orphaned t w -> orphaned t (fst (respond req w)).
Proof.
  intros (Hlt & Hts & Hm).
  unfold respond, pauseCommand, teardownPlugin_, recordPlugin_, get_plugin.
  repeat case_match; unfold spy_plug in *; simplify_eq/=; try done.
  - unfold orphaned; cbn. split_and!; [lia|done|].
    by eapply orphaned_insert_new.
  - unfold orphaned; cbn.
    split_and!; [done|by eapply orphaned_called|by apply orphaned_delete].
  - unfold orphaned; cbn. split_and!; [lia|done|].
    by eapply orphaned_insert_new.
  - eapply orphaned_host; [apply emitted_host|].
    unfold orphaned; cbn. split_and!; [done..|].
    by eapply orphaned_insert_same.
  - unfold orphaned; cbn.
    split_and!; [done|by eapply orphaned_called|by apply orphaned_delete].
Qed.

Lemma orphaned_step (t : nat) (ev : Event) (w : World) :
  orphaned t w -> orphaned t (step ev w).
Proof.
  intros H. destruct ev as [l|req|spyId stats|k d|t' s|d|t'|]; cbn [step].
  - destruct (batchNotification_host (notificationRef_of l) w)
      as (_ & Hm & _ & Hn & Hts & _).
    unfold orphaned. cbn zeta in *. by rewrite Hm, Hn, Hts.
  - unfold onRequest. destruct (subscription_ (dev w)); [|done].
    pose proof (orphaned_respond t req w H) as H'.
    destruct (respond req w) as [w' [response|]]; cbn in H'; [|done].
    by destruct (connection_ (dev w')).
  - destruct (existsb _ _); [|done].
    eapply orphaned_host; [apply batchDeckStats_host|done].
  - unfold deckChanged. repeat case_match; try done.
    destruct H as (Hlt & Hts & Hm). split_and!; [done..|].
    cbn. by eapply orphaned_insert_same.
  - done.
  - done.
  - destruct (due t' (env w)); [|done].
    timeout_cases w.
  - teardown_cases.
Qed.

Lemma orphaned_run (t : nat) (evs : list Event) (w : World) :
  orphaned t w -> orphaned t (run evs w).
Proof.
  revert w. induction evs as [|ev evs IH]; intros w H; [done|].
  cbn. apply IH. by apply orphaned_step.
Qed.

(** [X12] A [log] or [pause] request whose [postId] is already a key of
    the map writes its record over the one that was there, without calling
    the teardown procedure of the plugin it replaces.  That procedure is
    lost: whatever comes after, it is never called and no record holds
    it. *)
Theorem overwritten_plugin_is_never_torn_down (req : Request)
    (r : PluginRecord) (evs : list Event) (w : World) :
  reachable w ->
  subscription_ (dev w) = true ->
  requestType req ∈ ["log"; "pause"] ->
  plugins_ (dev w) !! postId req = Some r ->
  let w1 := step (Post req) w in
  let w' := run evs w1 in
  plugins_ (dev w1) !! postId req = Some (recorded req w) /\
  teardowns (env w1) = teardowns (env w) /\
  (rec_teardown r ∉ teardowns (env w')) /\
  forall k r', plugins_ (dev w') !! k = Some r' ->
               rec_teardown r' <> rec_teardown r.
Proof.
  intros Hreach Hsub Hty Hr. cbn zeta.
  destruct (reachable_window_inv w Hreach) as (_ & _ & Hconn).
  specialize (Hconn Hsub).
  destruct (reachable_teardown_inv w Hreach) as (_ & _ & Hrec & Hinj).
  destruct (Hrec _ _ Hr) as [Hlt Hnot].
  destruct (respond_record req w Hty) as (Hres & Hm & Hn & Hts & _ & Hc & _).
  cbn zeta in *.
  assert (step (Post req) w
          = with_env (post (MResponse (with_pluginId (postId req) (blank req))))
                     (fst (respond req w))) as Hstep.
  { cbn [step]. destruct (respond req w) as [w1 out] eqn:E. cbn in *.
    subst out. apply (onRequest_returned req w w1 _ Hsub E). by rewrite Hc. }
  assert (orphaned (rec_teardown r) (step (Post req) w)) as Horph.
  { rewrite Hstep. split_and!; cbn.
    - rewrite Hn. lia.
    - by rewrite Hts.
    - rewrite Hm. intros k r' [[<- <-]|[Hne Hl]]%lookup_insert_Some.
      + cbn. lia.
      + intros Heq. apply Hne. symmetry. by apply (Hinj _ _ _ _ Hl Hr). }
  destruct (orphaned_run _ evs _ Horph) as (_ & Hts' & Hm').
  split_and!; try done.
  - rewrite Hstep. cbn. rewrite Hm. apply lookup_insert_eq.
  - rewrite Hstep. cbn. by rewrite Hts.
Qed.

(** *** Without the extension *)

Lemma idle_step (ev : Event) (w : World) : idle w -> idle (step ev w).
Proof.
  destruct w as [d e].
  intros (Hd & Hp & Hti & Hq & Hts & Hn & Hss & Hdis). cbn in *. subst d.
  destruct ev as [l|req|spyId stats|k deck|t s|dt|t|]; cbn.
  - done.
  - done.
  - rewrite Hss. cbn. done.
  - done.
  - done.
  - done.
  - unfold due. rewrite Hti. cbn. done.
  - done.
Qed.

Lemma idle_run (evs : list Event) (w : World) : idle w -> idle (run evs w).
Proof.
  revert w. induction evs as [|ev evs IH]; intros w H; [done|].
  cbn. apply IH. by apply idle_step.
Qed.

(** [X13] When the extension is not there, the constructor leaves a plugin
    that does nothing: whatever hooks the spy calls, whatever is delivered,
    however much time passes, and also after [teardown], the plugin's
    fields are what the constructor made them, nothing is enqueued, no
    timer is armed, nothing is posted, and the spy is asked for no plugin
    and no teardown. *)
Theorem without_extension_nothing_happens (evs : list Event) (t : nat)
    (s : option Snapshot) :
  let w := run evs (constructor false t s) in
  dev w = dev (constructor false t s) /\
  enqueued (env w) = [] /\
  timers (env w) = [] /\
  posted (env w) = [] /\
  plugs (env w) = 0 /\
  teardowns (env w) = [] /\
  disconnected (env w) = false.
Proof.
  cbn zeta.
  assert (idle (constructor false t s)) as H by (by unfold idle).
  destruct (idle_run evs _ H) as (Hd & Hp & Hti & Hq & Hts & Hn & _ & Hdis).
  by split_and!.
Qed.

(** *** What a hook sends *)

(** [X14] A hook called while connected, with the flag down and at most
    [BATCH_NOTIFICATIONS] notifications queued, hands exactly one message
    to [batchMessage_]: a notification whose [type] is the hook's own name
    in kebab case, stamped with the spy's tick and the time of the call.
    Nothing is posted by the call itself, and the next hook gets a fresh
    object to identify. *)
Theorem hook_sends_its_notification (l : Lifecycle) (w : World) :
  connection_ (dev w) <> None ->
  snapshotHinted_ (dev w) = false ->
  count_notifications (batchQueue_ (dev w)) <= BATCH_NOTIFICATIONS ->
  let w' := step (Hook l) w in
  exists p,
    enqueued (env w') = enqueued (env w) ++ [MBroadcast (BNotification p)] /\
    last (batchQueue_ (dev w')) = Some (MBroadcast (BNotification p)) /\
    n_type p = hook_type l /\
    n_tick p = tick (env w) /\
    n_timestamp p = clock (env w) /\
    n_id p = identify (heap (env w)) /\
    heap (env w') = S (heap (env w)) /\
    posted (env w') = posted (env w).
Proof.
  intros Hc Hh Hn. cbn zeta. cbn [step].
  rewrite (batchNotification_accept _ w Hc Hh Hn).
  exists (fst (toNotification_ (notificationRef_of l) w)).
  rewrite batchMessage_enqueued.
  destruct (host_view_fields _ _
              (batchMessage_host
                 (MBroadcast (BNotification
                                (fst (toNotification_ (notificationRef_of l) w))))
                 (snd (toNotification_ (notificationRef_of l) w))))
    as (_ & _ & _ & _ & _ & _ & Hp).
  rewrite Hp. split_and!; try done.
  - unfold batchMessage_. cbn.
    destruct (batchTimeoutId_ (dev w)); cbn; [|done].
    by rewrite last_snoc.
  - by destruct l.
  - unfold batchMessage_. cbn. by destruct (batchTimeoutId_ (dev w)).
Qed.

(** *** The flush *)

(** [X15] In a reachable world with the connection up and a window open,
    the window's timer is due once [BATCH_MILLISECONDS] have passed, and
    its firing posts the whole queue as one batch, empties the queue,
    closes the window and leaves no timer armed: no message waits in the
    queue for longer than [BATCH_MILLISECONDS] after the timer may run. *)
Theorem open_window_is_flushed (id d : nat) (w : World) :
  reachable w ->
  connection_ (dev w) <> None ->
  batchTimeoutId_ (dev w) = Some id ->
  BATCH_MILLISECONDS <= d ->
  let w1 := step (Elapsed d) w in
  let w2 := step (TimerFired id) w1 in
  due id (env w1) = true /\
  posted (env w2) = posted (env w) ++ [MBatch (batchQueue_ (dev w))] /\
  batchQueue_ (dev w2) = [] /\
  batchTimeoutId_ (dev w2) = None /\
  timers (env w2) = [].
Proof.
  intros Hreach Hc Hid Hd. cbn zeta.
  destruct (reachable_timers_inv w Hreach) as (_ & Hdue & Harmed).
  destruct (Harmed Hc id Hid) as [d0 Hts].
  assert (d0 <= clock (env w) + BATCH_MILLISECONDS) as Hd0.
  { apply (Hdue (id, d0)). rewrite Hts. left. }
  assert (due id (env (step (Elapsed d) w)) = true) as Hfire.
  { apply (due_last id d0 []); cbn; [done|lia]. }
  split; [done|]. cbn [step] in *. rewrite Hfire.
  unfold batchTimeout_, clearTimeout. cbn.
  destruct (connection_ (dev w)); [|done]. cbn.
  split_and!; try done.
  rewrite Hts. cbn. unfold timer_is. cbn. by rewrite Nat.eqb_refl.
Qed.

(** *** The optional fields of a payload *)

(** [X16] In the payload of a notification the optional fields [tag],
    [graph] and [stackTrace] are never [undefined]: where the spy has no
    tag, no graph or no stack trace for the subscription, the payload says
    [null].  A graph that is there is sent with one id for each of its flats
    and each of its sources, its counters unchanged, and [null] for a sink
    or root sink it does not have. *)
Theorem payload_says_null_not_undefined (l : Lifecycle) (w : World) :
  let r := ref (notificationRef_of l) in
  let p := fst (toNotification_ (notificationRef_of l) w) in
  sub_stackTrace (n_subscription p) <> JUndefined /\
  (sub_stackTrace (n_subscription p) = JNull
   <-> getStackTrace r = JUndefined \/ getStackTrace r = JNull) /\
  (o_tag (n_observable p) = null <-> read (observable r) = None) /\
  (sub_graph (n_subscription p) = null <-> getGraphRef r = None) /\
  (forall g, getGraphRef r = Some g ->
     exists gp,
       sub_graph (n_subscription p) = just gp /\
       length (g_flats gp) = length (flats g) /\
       length (g_sources gp) = length (sources g) /\
       g_flatsFlushed gp = flatsFlushed g /\
       g_sourcesFlushed gp = sourcesFlushed g /\
       (g_sink gp = null <-> sink g = None) /\
       (g_rootSink gp = null <-> rootSink g = None)).
Proof.
  cbn zeta. unfold toNotification_, fresh_object. cbn.
  set (r := ref (notificationRef_of l)).
  split_and!.
  - by destruct (getStackTrace r).
  - destruct (getStackTrace r); cbn; split; try done; try (by intros [|]); auto.
  - by destruct (read (observable r)).
  - unfold toGraph. by destruct (getGraphRef r).
  - intros g Hg. unfold toGraph. rewrite Hg. cbn. eexists. split; [done|].
    cbn. rewrite !length_map.
    split_and!; try done; by destruct (sink g), (rootSink g).
Qed.
End Properties.

(** ** The properties on the concrete setting *)

Section Examples.
#[local] Existing Instance sample_constants.
#[local] Existing Instance sample_collaborators.

Lemma world_open_reachable : reachable world_open.
Proof. apply reachable_run, reachable_constructor. Qed.

Lemma world_full_reachable : reachable world_full.
Proof. apply reachable_run, world_open_reachable. Qed.

Lemma world_hinted_reachable : reachable world_hinted.
Proof. apply reachable_step, world_full_reachable. Qed.

Lemma world_torn_down_reachable : reachable world_torn_down.
Proof. apply reachable_run, reachable_constructor. Qed.

(** [C1] is not what the code does.  [world_open] is connected, not
    hinted, and has its window open; [w] is [world_open] after
    [BATCH_NOTIFICATIONS + 1] hooks, in the same window (same timer, nothing
    posted in between): all of them are in the queue, no snapshot-hint is,
    and the flag is off. *)
Lemma overload_not_at_threshold_plus_one :
  let w :=
    run (Hook <$> replicate (BATCH_NOTIFICATIONS + 1) sample_hook) world_open in
  reachable w /\
  (connection_ (dev world_open) = Some connect /\
   snapshotHinted_ (dev world_open) = false /\
   batchTimeoutId_ (dev world_open) = Some 1) /\
  (batchTimeoutId_ (dev w) = Some 1 /\
   posted (env w) = posted (env world_open)) /\
  (count_notifications (batchQueue_ (dev w)) = BATCH_NOTIFICATIONS + 1 /\
   List.filter is_snapshot_hint (batchQueue_ (dev w)) = [] /\
   snapshotHinted_ (dev w) = false).
Proof.
  split; [exact world_full_reachable|]. vm_compute. repeat split.
Qed.

(** The theorem of [C1] at [world_open]: after [BATCH_NOTIFICATIONS + 1]
    hooks the flag is off, the hook after them leaves the deck-stats message
    and the hint in the queue and sets the flag, one more hook changes
    nothing, and the snapshot request clears the flag. *)
Lemma overload_collapses_past_threshold_witness :
  (connection_ (dev world_open) <> None /\
   snapshotHinted_ (dev world_open) = false /\
   batchTimeoutId_ (dev world_open) = Some 1 /\
   count_notifications (batchQueue_ (dev world_open))
   + length (replicate (BATCH_NOTIFICATIONS + 1) sample_hook)
   = BATCH_NOTIFICATIONS + 1) /\
  snapshotHinted_ (dev world_full) = false /\
  batchQueue_ (dev world_hinted)
  = List.filter (fun message => negb (is_notification message))
                (batchQueue_ (dev world_open))
      ++ [MBroadcast BSnapshotHint] /\
  snapshotHinted_ (dev world_hinted) = true /\
  step (Hook sample_hook) world_hinted = world_hinted /\
  snapshotHinted_ (dev (step (Post snapshot_request) world_hinted)) = false.
Proof.
  assert (connection_ (dev world_open) <> None) as H1
    by (vm_compute; discriminate).
  assert (snapshotHinted_ (dev world_open) = false) as H2
    by (vm_compute; reflexivity).
  assert (batchTimeoutId_ (dev world_open) = Some 1) as H3
    by (vm_compute; reflexivity).
  assert (count_notifications (batchQueue_ (dev world_open))
          + length (replicate (BATCH_NOTIFICATIONS + 1) sample_hook)
          = BATCH_NOTIFICATIONS + 1) as H4 by (vm_compute; reflexivity).
  split; [exact (conj H1 (conj H2 (conj H3 H4)))|].
  destruct (overload_collapses_past_threshold
              (replicate (BATCH_NOTIFICATIONS + 1) sample_hook)
              sample_hook sample_hook snapshot_request 1 world_open
              H1 H2 H3 H4) as ((Hf & _ & _) & (Hq & Hh & Hs) & Hclear).
  assert (subscription_ (dev world_hinted) = true) as H5
    by (vm_compute; reflexivity).
  exact (conj Hf (conj Hq (conj Hh (conj Hs (Hclear eq_refl H5))))).
Defined.



(** [C3] is not what the code does.  The payload of an [error] has no
    [value] (the error is in [subscription.error]), and neither has the
    payload of a [next] whose value is [undefined]. *)
Lemma error_payload_has_no_value :
  let p := fst (toNotification_
                  (notificationRef_of (beforeError sample_ref (JString "boom")))
                  world_connected) in
  let q := fst (toNotification_
                  (notificationRef_of (beforeNext sample_ref JUndefined))
                  world_connected) in
  (n_type p = "before-error" /\ n_value p = None /\
   sub_error (n_subscription p) = JString "boom") /\
  (n_type q = "before-next" /\ n_value q = None).
Proof. vm_compute. repeat split. Qed.

(** [C4] is not what the code does.  In [world_torn_down] the connection
    is gone, a window is open with one deck-stats message and its timer is
    due; when the timer fires nothing is posted and the window stays
    open. *)
Lemma timer_fires_without_connection :
  let w := world_torn_down in
  let w' := step (TimerFired 1) w in
  reachable w /\
  (connection_ (dev w) = None /\
   batchTimeoutId_ (dev w) = Some 1 /\
   due 1 (env w) = true /\
   batchQueue_ (dev w) = [MBroadcast (BDeckStats (toStats "s1" stats_paused))]) /\
  (posted (env w') = posted (env w) /\
   batchQueue_ (dev w') = batchQueue_ (dev w) /\
   batchTimeoutId_ (dev w') = Some 1).
Proof.
  split; [exact world_torn_down_reachable|]. vm_compute. repeat split.
Qed.

(** The theorem of [C4] at [world_connected]: two messages open a window
    and fill it, the timer is due after [BATCH_MILLISECONDS], and when it
    fires the two are posted as one batch, in their order. *)
Lemma batchMessage_window_witness :
  let m1 := MBroadcast (BDeckStats (toStats "s1" stats_paused)) in
  let m2 := MBroadcast BSnapshotHint in
  let w2 := fold_left (fun w m => batchMessage_ m w) [m2]
                      (batchMessage_ m1 world_connected) in
  let w4 := step (TimerFired 1) (step (Elapsed BATCH_MILLISECONDS) w2) in
  (batchTimeoutId_ (dev world_connected) = None /\
   BATCH_MILLISECONDS <= BATCH_MILLISECONDS) /\
  batchQueue_ (dev w2) = [m1; m2] /\
  due 1 (env (step (Elapsed BATCH_MILLISECONDS) w2)) = true /\
  posted (env w4) = [MBatch [m1; m2]] /\
  batchQueue_ (dev w4) = [] /\
  batchTimeoutId_ (dev w4) = None.
Proof.
  cbv zeta.
  assert (batchTimeoutId_ (dev world_connected) = None) as H1 by reflexivity.
  assert (BATCH_MILLISECONDS <= BATCH_MILLISECONDS) as H2 by lia.
  destruct (batchMessage_window
              (MBroadcast (BDeckStats (toStats "s1" stats_paused)))
              [MBroadcast BSnapshotHint] 1 BATCH_MILLISECONDS world_connected)
    as (_ & Horder & Hfire).
  destruct (Horder H1) as [Hq Hdue].
  specialize (Hdue H2). specialize (Hfire Hdue).
  exact (conj (conj H1 H2) (conj Hq (conj Hdue Hfire))).
Defined.

(** The theorem of [C5] at [world_connected]: the deck of "s1" emits
    twice in one window, hooks in between; the batch posted at the end holds
    the second stats only. *)
Lemma batchDeckStats_latest_only_witness :
  let mid := [Hook sample_hook; Elapsed 50] in
  let w1 := batchDeckStats_ (toStats "s1" stats_paused) world_connected in
  let w2 := batchDeckStats_ (toStats "s1" stats_running) (run mid w1) in
  let w3 := run mid w2 in
  let w4 := step (TimerFired 1) w3 in
  (connection_ (dev world_connected) <> None /\
   forallb (leaves_deck_stats "s1") mid = true /\
   due 1 (env w3) = true) /\
  exists batch,
    posted (env w4) = posted (env w3) ++ [MBatch batch] /\
    List.filter (is_deck_stats_for "s1") batch
    = [MBroadcast (BDeckStats (toStats "s1" stats_running))].
Proof.
  cbv zeta.
  assert (connection_ (dev world_connected) <> None) as H1
    by (vm_compute; discriminate).
  assert (forallb (leaves_deck_stats "s1") [Hook sample_hook; Elapsed 50]
          = true) as H2 by reflexivity.
  destruct (batchDeckStats_latest_only
              "s1" stats_paused stats_running
              [Hook sample_hook; Elapsed 50] [Hook sample_hook; Elapsed 50]
              1 world_connected H1 H2 H2) as (_ & _ & _ & Hfire).
  match type of Hfire with
  | ?d = true -> _ => assert (d = true) as H3 by (vm_compute; reflexivity)
  end.
  exact (conj (conj H1 (conj H2 H3)) (Hfire H3)).
Defined.

(** The theorem of [C6] at [world_open]: a teardown request for the
    unknown id "p9", and the recorded plugin "p1" torn down twice. *)
Lemma absent_plugin_is_noop_witness :
  (reachable world_open /\
   get_plugin (req_pluginId unknown_teardown_request) world_open = None /\
   requestType unknown_teardown_request
   ∈ ["pause-command"; "log-teardown"; "pause-teardown"]) /\
  respond unknown_teardown_request world_open
  = (world_open, Returned (blank unknown_teardown_request)) /\
  res_error (blank unknown_teardown_request) = None /\
  dev (step (Post unknown_teardown_request) world_open) = dev world_open /\
  teardownPlugin_ (Some "p1") (teardownPlugin_ (Some "p1") world_open)
  = teardownPlugin_ (Some "p1") world_open /\
  NoDup (teardowns (env world_open)).
Proof.
  assert (get_plugin (req_pluginId unknown_teardown_request) world_open = None)
    as H2 by (vm_compute; reflexivity).
  assert (requestType unknown_teardown_request
          ∈ ["pause-command"; "log-teardown"; "pause-teardown"]) as H3
    by (cbn; repeat constructor).
  exact (conj (conj world_open_reachable (conj H2 H3))
              (absent_plugin_is_noop unknown_teardown_request (Some "p1")
                 world_open world_open_reachable H2 H3)).
Defined.

(** The theorem of [C7] at [world_open], whose plugin "p1" is a pause
    plugin: [inspect], and the unknown command "rewind". *)
Lemma inspect_is_not_implemented_witness :
  (requestType inspect_request = "pause-command" /\
   req_pluginId inspect_request = Some "p1" /\
   plugins_ (dev world_open) !! "p1" = Some pause_record /\
   command inspect_request = Some "inspect" /\
   command bogus_request ∉ (Some <$> "inspect" :: deck_methods)) /\
  respond inspect_request world_open
  = (world_open,
     Returned {| request := inspect_request;
                 res_error := Some "Not implemented.";
                 res_pluginId := None; res_snapshot := None |}) /\
  respond bogus_request world_open
  = (world_open,
     Returned {| request := bogus_request;
                 res_error := Some "Unexpected command.";
                 res_pluginId := None; res_snapshot := None |}) /\
  plugins_ (dev (step (Post inspect_request) world_open))
  = plugins_ (dev world_open).
Proof.
  assert (plugins_ (dev world_open) !! "p1" = Some pause_record) as H3
    by (vm_compute; reflexivity).
  assert (command bogus_request ∉ (Some <$> "inspect" :: deck_methods)) as H5.
  { intros H. cbn in H. repeat (apply elem_of_cons in H as [[=]|H]).
    by apply elem_of_nil in H. }
  assert (command inspect_request ∉ (Some <$> deck_methods)) as H6.
  { intros H. cbn in H. repeat (apply elem_of_cons in H as [[=]|H]).
    by apply elem_of_nil in H. }
  destruct (inspect_is_not_implemented inspect_request "p1" pause_record
              world_open eq_refl eq_refl H3) as (Hinspect & _ & Hdeck).
  destruct (inspect_is_not_implemented bogus_request "p1" pause_record
              world_open eq_refl eq_refl H3) as (_ & Hbogus & _).
  exact (conj (conj eq_refl (conj eq_refl (conj H3 (conj eq_refl H5))))
              (conj (Hinspect eq_refl) (conj (Hbogus H5) (Hdeck H6)))).
Defined.

(** The theorem of [C8] at [world_open], whose queue holds one message:
    after [teardown] no timer is left, and when [BATCH_MILLISECONDS] have
    passed nothing more has been posted. *)
Lemma teardown_discards_queue_witness :
  reachable world_open /\
  batchQueue_ (dev world_open) = [MBroadcast (BDeckStats (toStats "s1" stats_paused))] /\
  timers (env (teardown world_open)) = [] /\
  posted (env (run [Elapsed BATCH_MILLISECONDS; TimerFired 1; Hook sample_hook]
                   (teardown world_open)))
  = posted (env world_open).
Proof.
  destruct (teardown_discards_queue
              [Elapsed BATCH_MILLISECONDS; TimerFired 1; Hook sample_hook]
              world_open) as (_ & _ & Htimers & _ & _ & Hposted).
  exact (conj world_open_reachable
              (conj eq_refl (conj (Htimers world_open_reachable) Hposted))).
Defined.

(** The theorem of [C9] at [world_full], where the next hook collapses the
    queue. *)
Lemma overload_spares_deck_stats_witness :
  let nref := notificationRef_of sample_hook in
  let w' := batchNotification_ nref world_full in
  (reachable world_full /\
   snapshotHinted_ (dev world_full) = false /\
   snapshotHinted_ (dev w') = true) /\
  batchQueue_ (dev w')
  = List.filter (fun message => negb (is_notification message))
                (batchQueue_ (dev world_full))
      ++ [MBroadcast BSnapshotHint] /\
  batchDeckStats_ (toStats "s1" stats_running) (with_dev (set_snapshotHinted_ true) world_full)
  = with_dev (set_snapshotHinted_ true) (batchDeckStats_ (toStats "s1" stats_running) world_full) /\
  batchQueue_ (dev (batchDeckStats_ (toStats "s1" stats_running) w'))
  = List.filter (other_deck_stats (stats_id (toStats "s1" stats_running)))
                (batchQueue_ (dev w'))
      ++ [MBroadcast (BDeckStats (toStats "s1" stats_running))].
Proof.
  cbv zeta.
  assert (snapshotHinted_ (dev world_full) = false) as H2
    by (vm_compute; reflexivity).
  assert (snapshotHinted_
            (dev (batchNotification_ (notificationRef_of sample_hook) world_full))
          = true) as H3 by (vm_compute; reflexivity).
  exact (conj (conj world_full_reachable (conj H2 H3))
              (overload_spares_deck_stats
                 (notificationRef_of sample_hook)
                 (toStats "s1" stats_running) true world_full
                 world_full_reachable H2 H3)).
Defined.

(** The theorem of [C10] at [world_full]: after the collapse come stats,
    hooks, a request, and the window's timer. *)
Lemma one_hint_per_suppression_witness :
  let evs := [StatsEmitted "s1" stats_running; Hook sample_hook; Post inspect_request;
              Elapsed BATCH_MILLISECONDS; TimerFired 1; Hook sample_hook] in
  let w' := run evs (step (Hook sample_hook) world_full) in
  (snapshotHinted_ (dev world_full) = false /\
   snapshotHinted_ (dev (step (Hook sample_hook) world_full)) = true /\
   forallb (fun ev => negb (is_snapshot_request ev)) evs = true) /\
  snapshotHinted_ (dev w') = true /\
  List.filter is_snapshot_hint (enqueued (env w'))
  = List.filter is_snapshot_hint (enqueued (env world_full))
      ++ [MBroadcast BSnapshotHint] /\
  step (Hook sample_hook) w' = w'.
Proof.
  cbv zeta.
  assert (snapshotHinted_ (dev world_full) = false) as H1
    by (vm_compute; reflexivity).
  assert (snapshotHinted_ (dev (step (Hook sample_hook) world_full)) = true)
    as H2 by (vm_compute; reflexivity).
  assert (forallb (fun ev => negb (is_snapshot_request ev))
                  [StatsEmitted "s1" stats_running; Hook sample_hook;
                   Post inspect_request; Elapsed BATCH_MILLISECONDS;
                   TimerFired 1; Hook sample_hook] = true) as H3 by reflexivity.
  exact (conj (conj H1 (conj H2 H3))
              (one_hint_per_suppression sample_hook sample_hook _ world_full
                 H1 H2 H3)).
Defined.

(** *** The further properties on the concrete setting *)

Lemma world_flushed_reachable : reachable world_flushed.
Proof. apply reachable_run, world_open_reachable. Qed.


(** The theorem of [X2] at a request of an unknown type. *)
Lemma response_error_surface_witness :
  let r := with_error "Unexpected request." (blank unknown_request) in
  respond unknown_request world_open = (world_open, Returned r) /\
  request r = unknown_request /\
  (res_error r = None \/
   exists e, e ∈ response_errors /\ res_error r = Some e) /\
  (is_Some (res_pluginId r)
   <-> requestType unknown_request ∈ ["log"; "pause"]) /\
  (res_error r = Some "Unexpected request."
   <-> requestType unknown_request ∉ request_types).
Proof.
  cbv zeta.
  assert (respond unknown_request world_open
          = (world_open,
             Returned (with_error "Unexpected request." (blank unknown_request))))
    as H by (vm_compute; reflexivity).
  destruct (response_error_surface unknown_request world_open world_open _ H)
    as (Hecho & Herr & Hid & _ & Hunknown & _).
  exact (conj H (conj Hecho (conj Herr (conj Hid Hunknown)))).
Defined.

(** The theorem of [X3] at [world_connected]: a hook posts nothing, the
    pause request is answered by its one response. *)
Lemma request_answered_once_witness :
  (reachable world_connected /\
   subscription_ (dev world_connected) = true) /\
  (exists ms,
      posted (env (step (Hook sample_hook) world_connected))
      = posted (env world_connected) ++ ms /\ length ms <= 1) /\
  posted (env (step (Post pause_request) world_connected))
  = posted (env world_connected)
      ++ [MResponse (with_pluginId "p1" (blank pause_request))] /\
  request (with_pluginId "p1" (blank pause_request)) = pause_request /\
  subscription_ (dev (step (Post pause_request) world_connected)) = true.
Proof.
  exact (conj (conj (reachable_constructor true 0 None) eq_refl)
              (request_answered_once (Hook sample_hook) pause_request
                 world_connected (reachable_constructor true 0 None) eq_refl)).
Defined.

(** The theorem of [X4] at [world_flushed], whose first window was
    posted as [sample_batch]. *)
Lemma notifications_bounded_witness :
  (reachable world_flushed /\
   MBatch sample_batch ∈ posted (env world_flushed)) /\
  count_notifications (batchQueue_ (dev world_flushed))
  <= BATCH_NOTIFICATIONS + 1 /\
  count_notifications sample_batch <= BATCH_NOTIFICATIONS + 1.
Proof.
  assert (MBatch sample_batch ∈ posted (env world_flushed)) as H2
    by (vm_compute; repeat constructor).
  destruct (notifications_bounded sample_batch world_flushed
              world_flushed_reachable) as [Hq Hb].
  exact (conj (conj world_flushed_reachable H2) (conj Hq (Hb H2))).
Defined.

(** The theorem of [X5] at [world_flushed] and the batch it posted. *)
Lemma wire_shape_witness :
  (reachable world_flushed /\
   MBatch sample_batch ∈ posted (env world_flushed)) /\
  sample_batch <> [] /\
  Forall (fun m => is_broadcast m = true) sample_batch.
Proof.
  assert (MBatch sample_batch ∈ posted (env world_flushed)) as H2
    by (vm_compute; repeat constructor).
  destruct (wire_shape (MBatch sample_batch) world_flushed
              world_flushed_reachable) as [_ Hp].
  exact (conj (conj world_flushed_reachable H2) (Hp H2)).
Defined.

(** The theorem of [X6] at [world_flushed] and the deck of "s1". *)
Lemma one_deck_stats_per_deck_witness :
  (reachable world_flushed /\
   MBatch sample_batch ∈ posted (env world_flushed)) /\
  length (List.filter (is_deck_stats_for "s1")
                      (batchQueue_ (dev world_flushed))) <= 1 /\
  length (List.filter (is_deck_stats_for "s1") sample_batch) <= 1.
Proof.
  assert (MBatch sample_batch ∈ posted (env world_flushed)) as H2
    by (vm_compute; repeat constructor).
  destruct (one_deck_stats_per_deck "s1" sample_batch world_flushed
              world_flushed_reachable) as [Hq Hb].
  exact (conj (conj world_flushed_reachable H2) (conj Hq (Hb H2))).
Defined.

(** The theorem of [X7] at [world_hinted]. *)
Lemma suppressed_queue_has_no_notification_witness :
  (reachable world_hinted /\ snapshotHinted_ (dev world_hinted) = true) /\
  Forall (fun m => is_notification m = false) (batchQueue_ (dev world_hinted)).
Proof.
  assert (snapshotHinted_ (dev world_hinted) = true) as H2
    by (vm_compute; reflexivity).
  exact (conj (conj world_hinted_reachable H2)
              (suppressed_queue_has_no_notification world_hinted
                 world_hinted_reachable H2)).
Defined.

(** The theorem of [X8] at [world_flushed]. *)
Lemma batches_keep_order_witness :
  reachable world_flushed /\
  sublist (batched (posted (env world_flushed))
             ++ batchQueue_ (dev world_flushed))
          (enqueued (env world_flushed)).
Proof.
  exact (conj world_flushed_reachable
              (batches_keep_order world_flushed world_flushed_reachable)).
Defined.

(** The theorem of [X9] at [world_open], whose window holds the timer
    1. *)
Lemma one_timer_per_window_witness :
  (reachable world_open /\
   connection_ (dev world_open) <> None /\
   batchTimeoutId_ (dev world_open) = Some 1) /\
  length (timers (env world_open)) <= 1 /\
  (batchQueue_ (dev world_open) = []
   <-> batchTimeoutId_ (dev world_open) = None) /\
  exists d, timers (env world_open) = [(1, d)].
Proof.
  assert (connection_ (dev world_open) <> None) as H2
    by (vm_compute; discriminate).
  assert (batchTimeoutId_ (dev world_open) = Some 1) as H3
    by (vm_compute; reflexivity).
  destruct (one_timer_per_window world_open world_open_reachable)
    as (Hone & _ & Hconn).
  destruct (Hconn H2) as [Hiff Harmed].
  exact (conj (conj world_open_reachable (conj H2 H3))
              (conj Hone (conj Hiff (Harmed 1 H3)))).
Defined.

(** The theorem of [X10] at [world_open]: after [teardown] come a teardown
    request for "p1", a hook and the window's timer. *)
Lemma teardown_is_final_witness :
  let w' := run [Post teardown_request; Hook sample_hook;
                 Elapsed BATCH_MILLISECONDS; TimerFired 1]
                (teardown world_open) in
  reachable world_open /\
  (plugins_ (dev (teardown world_open)) = plugins_ (dev world_open) /\
   teardowns (env (teardown world_open)) = teardowns (env world_open) /\
   teardown (teardown world_open) = teardown world_open) /\
  (step (Post teardown_request) w' = w' /\
   teardowns (env w') = teardowns (env world_open) /\
   plugs (env w') = plugs (env world_open) /\
   dom (plugins_ (dev w')) = dom (plugins_ (dev world_open))).
Proof.
  exact (conj world_open_reachable
              (teardown_is_final
                 [Post teardown_request; Hook sample_hook;
                  Elapsed BATCH_MILLISECONDS; TimerFired 1]
                 teardown_request world_open world_open_reachable)).
Defined.

(** The theorem of [X12] at [world_open]: a [log]
    request comes with the id "p1" of the pause plugin, whose procedure is
    0; then "p1" is torn down, and the plugin itself. *)
Lemma overwritten_plugin_is_never_torn_down_witness :
  let w1 := step (Post log_request_again) world_open in
  let w' := run [Post teardown_request; Teardown] w1 in
  (reachable world_open /\
   subscription_ (dev world_open) = true /\
   requestType log_request_again ∈ ["log"; "pause"] /\
   plugins_ (dev world_open) !! postId log_request_again = Some pause_record) /\
  plugins_ (dev w1) !! postId log_request_again
  = Some (recorded log_request_again world_open) /\
  teardowns (env w1) = teardowns (env world_open) /\
  (rec_teardown pause_record ∉ teardowns (env w')) /\
  forall k r', plugins_ (dev w') !! k = Some r' ->
               rec_teardown r' <> rec_teardown pause_record.
Proof.
  cbv zeta.
  assert (subscription_ (dev world_open) = true) as H2
    by (vm_compute; reflexivity).
  assert (requestType log_request_again ∈ ["log"; "pause"]) as H3
    by (cbn; repeat constructor).
  assert (plugins_ (dev world_open) !! postId log_request_again
          = Some pause_record) as H4 by (vm_compute; reflexivity).
  exact (conj (conj world_open_reachable (conj H2 (conj H3 H4)))
              (overwritten_plugin_is_never_torn_down log_request_again
                 pause_record [Post teardown_request; Teardown] world_open
                 world_open_reachable H2 H3 H4)).
Defined.

(** The theorem of [X14] at [world_open] and a [next]. *)
Lemma hook_sends_its_notification_witness :
  let w' := step (Hook sample_hook) world_open in
  (connection_ (dev world_open) <> None /\
   snapshotHinted_ (dev world_open) = false /\
   count_notifications (batchQueue_ (dev world_open))
   <= BATCH_NOTIFICATIONS) /\
  exists p,
    enqueued (env w')
    = enqueued (env world_open) ++ [MBroadcast (BNotification p)] /\
    last (batchQueue_ (dev w')) = Some (MBroadcast (BNotification p)) /\
    n_type p = hook_type sample_hook /\
    n_tick p = tick (env world_open) /\
    n_timestamp p = clock (env world_open) /\
    n_id p = identify (heap (env world_open)) /\
    heap (env w') = S (heap (env world_open)) /\
    posted (env w') = posted (env world_open).
Proof.
  cbv zeta.
  assert (connection_ (dev world_open) <> None) as H1
    by (vm_compute; discriminate).
  assert (snapshotHinted_ (dev world_open) = false) as H2
    by (vm_compute; reflexivity).
  assert (count_notifications (batchQueue_ (dev world_open))
          <= BATCH_NOTIFICATIONS) as H3 by (vm_compute; lia).
  exact (conj (conj H1 (conj H2 H3))
              (hook_sends_its_notification sample_hook world_open H1 H2 H3)).
Defined.

(** The theorem of [X15] at [world_open], whose window holds one
    deck-stats message. *)
Lemma open_window_is_flushed_witness :
  let w1 := step (Elapsed BATCH_MILLISECONDS) world_open in
  let w2 := step (TimerFired 1) w1 in
  (reachable world_open /\
   connection_ (dev world_open) <> None /\
   batchTimeoutId_ (dev world_open) = Some 1 /\
   BATCH_MILLISECONDS <= BATCH_MILLISECONDS) /\
  due 1 (env w1) = true /\
  posted (env w2)
  = posted (env world_open) ++ [MBatch (batchQueue_ (dev world_open))] /\
  batchQueue_ (dev w2) = [] /\
  batchTimeoutId_ (dev w2) = None /\
  timers (env w2) = [].
Proof.
  cbv zeta.
  assert (connection_ (dev world_open) <> None) as H2
    by (vm_compute; discriminate).
  assert (batchTimeoutId_ (dev world_open) = Some 1) as H3
    by (vm_compute; reflexivity).
  assert (BATCH_MILLISECONDS <= BATCH_MILLISECONDS) as H4 by lia.
  exact (conj (conj world_open_reachable (conj H2 (conj H3 H4)))
              (open_window_is_flushed 1 BATCH_MILLISECONDS world_open
                 world_open_reachable H2 H3 H4)).
Defined.

End Examples.
